(** * Booking grid of the padel dashboard: response transformation, day
    sequence, time slots, cell status and the fetch transition.

    Shallow embedding of the logic of the [Booking] component
    (src/unnamed/part_000): [convertApiResponse], [fetchBookings], the
    [dates] memo, the [times] table, [getBookingKey], [getBookingStatus]
    and the [isBooked] test of the grid cells. *)

From Stdlib Require Import ZArith String Ascii List Lia.
From stdpp Require Import base tactics option list strings pretty gmap fin_maps.

Local Open Scope Z_scope.

(** ** JavaScript values *)

(** A number: an integer or [NaN]. The embedding is exact on the safe
    integers (below 2^53 in absolute value), which contain the hour range
    0..23 of the interface and every difference of two days: from 2^53 on
    the doubles of the code round a sum, and from 10^21 on they are printed
    with an exponent. Fractional numbers are outside the model. *)
Inductive JsNumber : Type :=
  | Num (n : Z)
  | NaN.

(** The values a decoded JSON body can hold in a field, together with
    [undefined] for a missing property.

    - [JObj repr] is an array, an object or a function that has a
      primitive value; all the code can observe of it is that it is truthy
      and that its conversion to a string (and to a primitive) is [repr].
    - A [string] counts bytes, where JavaScript counts UTF-16 units; the
      two lengths agree on ASCII text, which is all the keys contain. *)
Inductive JsVal : Type :=
  | JUndefined
  | JNull
  | JBool (b : bool)
  | JNumber (x : JsNumber)
  | JStr (s : string)
  | JObj (repr : string).

#[global] Instance JsNumber_eq_dec : EqDecision JsNumber.
Proof. solve_decision. Defined.

#[global] Instance JsVal_eq_dec : EqDecision JsVal.
Proof. solve_decision. Defined.

Definition number_to_string (x : JsNumber) : string :=
  match x with
  | Num n => pretty n
  | NaN => "NaN"
  end.

Definition number_add (x y : JsNumber) : JsNumber :=
  match x, y with
  | Num a, Num b => Num (a + b)
  | _, _ => NaN
  end.

(** [String(v)], also the conversion of [`${v}`]. *)
Definition js_String (v : JsVal) : string :=
  match v with
  | JUndefined => "undefined"
  | JNull => "null"
  | JBool true => "true"
  | JBool false => "false"
  | JNumber x => number_to_string x
  | JStr s => s
  | JObj repr => repr
  end.

(** [v + 1]: string concatenation when [v] converts to a string primitive,
    numeric addition otherwise. *)
Definition js_add_one (v : JsVal) : JsVal :=
  match v with
  | JUndefined => JNumber NaN
  | JNull => JNumber (Num 1)
  | JBool true => JNumber (Num 2)
  | JBool false => JNumber (Num 1)
  | JNumber x => JNumber (number_add x (Num 1))
  | JStr s => JStr (s +:+ "1")
  | JObj repr => JStr (repr +:+ "1")
  end.

(** [!!v] *)
Definition js_truthy (v : JsVal) : bool :=
  match v with
  | JUndefined | JNull | JNumber NaN => false
  | JBool b => b
  | JNumber (Num n) => negb (n =? 0)
  | JStr s => negb (String.eqb s "")
  | JObj _ => true
  end.

(** [s.padStart(2, '0')] *)
Definition padStart2 (s : string) : string :=
  match s with
  | "" => "00"
  | String c "" => String "0" (String c "")
  | _ => s
  end.

(** ** Exceptions *)

Inductive JsError : Type :=
  | TypeError
  | RangeError
  | AxiosError.

Inductive Exc (A : Type) : Type :=
  | Ok (a : A)
  | Throw (e : JsError).
Arguments Ok {A} a.
Arguments Throw {A} e.

(** The exception monad, with stdpp's [x ← m; k] notation. *)
#[global] Instance Exc_ret : MRet Exc := λ A a, Ok a.

#[global] Instance Exc_fmap : FMap Exc := λ A B f m,
  match m with
  | Ok a => Ok (f a)
  | Throw e => Throw e
  end.

#[global] Instance Exc_bind : MBind Exc := λ A B k m,
  match m with
  | Ok a => k a
  | Throw e => Throw e
  end.

(** ** Records of the response *)

(** An element of [booked_slots] on which property reads succeed and whose
    hour and date convert to a primitive: its three fields, [JUndefined]
    for a field that is missing. *)
Record Slot : Type := mkSlot {
  slot_date : JsVal;
  slot_hour : JsVal;
  slot_booked : JsVal
}.

(** An element of the collection: [null] (reading [slot.hour] throws), a
    record, or a record whose hour or date has no primitive value: a
    decoded object with an own [toString] property, as [{"toString": 0}],
    or an array that holds one. On such a field [String(slot.hour)],
    [slot.hour + 1] and the [${slot.date}] of the template throw a
    TypeError, before the assignment of line 80. *)
Inductive Elem : Type :=
  | ENull
  | ERecord (slot : Slot)
  | EUnprintable.

(** [response.data] as [convertApiResponse] sees it. *)
Inductive ApiData : Type :=
  | DataNullish                    (* null or undefined: [apiData.booked_slots] throws *)
  | DataNoSlots                    (* [booked_slots] missing or falsy *)
  | DataSlots (elems : list Elem). (* [Object.values(apiData.booked_slots)], in order *)

(** The lookup table, [Record<string, string>] in the source: the own
    properties of the object. *)
Abbreviation Table := (gmap string JsVal).

(** Lines 75-77: the hour-range label of a record. *)
Definition timeRange (slot : Slot) : string :=
  let startHour := padStart2 (js_String (slot_hour slot)) in
  let endHour := padStart2 (js_String (js_add_one (slot_hour slot))) in
  startHour +:+ ":00 - " +:+ endHour +:+ ":00".

(** Line 79: the key of a record. *)
Definition slotKey (slot : Slot) : string :=
  js_String (slot_date slot) +:+ "_" +:+ timeRange slot.

(** Line 80: [converted[key] = slot.booked] creates or overwrites an own
    property ([slotKey_not_proto] below: the key is never ["__proto__"]). *)
Definition write (converted : Table) (slot : Slot) : Table :=
  <[slotKey slot := slot_booked slot]> converted.

(** Lines 74-80, the callback of [forEach]: one element of the collection
    written into [converted]. *)
Definition forEach_body (converted : Table) (e : Elem) : Exc Table :=
  match e with
  | ENull => Throw TypeError
  | ERecord slot => Ok (write converted slot)
  | EUnprintable => Throw TypeError
  end.

(** [forEach] over the collection, threading the object being filled. *)
Fixpoint forEach (elems : list Elem) (converted : Table) : Exc Table :=
  match elems with
  | [] => Ok converted
  | e :: rest => converted' ← forEach_body converted e; forEach rest converted'
  end.

(** Lines 69-85. *)
Definition convertApiResponse (apiData : ApiData) : Exc Table :=
  match apiData with
  | DataNullish => Throw TypeError
  | DataNoSlots => Ok ∅
  | DataSlots elems => forEach elems ∅
  end.

(** ** Component state and the fetch *)

Record State : Type := mkState {
  startDate : string;
  endDate : string;
  bookings : Table;
  loading : bool;
  error : option string
}.

Definition setBookings (b : Table) (st : State) : State :=
  mkState (startDate st) (endDate st) b (loading st) (error st).
Definition setLoading (l : bool) (st : State) : State :=
  mkState (startDate st) (endDate st) (bookings st) l (error st).
Definition setError (e : option string) (st : State) : State :=
  mkState (startDate st) (endDate st) (bookings st) (loading st) e.

(** Lines 62-66: the state of the component when it mounts, for the two
    date strings computed from the clock. *)
Definition initialState (today todayPlus6 : string) : State :=
  mkState today todayPlus6 ∅ false None.

(** What the request comes back with. *)
Inductive Response : Type :=
  | NetworkError
  | HttpResponse (status : Z) (data : ApiData).

(** [axios.get]: the promise resolves on a status in 200..299 and rejects
    otherwise. *)
Definition axios_get (r : Response) : Exc ApiData :=
  match r with
  | NetworkError => Throw AxiosError
  | HttpResponse status data =>
      if (200 <=? status) && (status <? 300) then Ok data else Throw AxiosError
  end.

(** The fetch fails: a network error, or a response whose status is not
    2xx. *)
Definition request_fails (r : Response) : Prop :=
  match r with
  | NetworkError => True
  | HttpResponse status _ => ¬ 200 ≤ status ≤ 299
  end.

Definition errorMessage : string := "Gagal memuat data booking".

(** Lines 89-90: the part of [fetchBookings] before the [await]. *)
Definition fetchPending (st : State) : State :=
  setError None (setLoading true st).

(** Lines 92-101: [try] / [catch] / [finally], once the request settled. *)
Definition fetchSettle (r : Response) (st : State) : State :=
  let st' :=
    match (data ← axios_get r; convertApiResponse data) with
    | Ok convertedData => setBookings convertedData st
    | Throw _ => setError (Some errorMessage) st
    end in
  setLoading false st'.

(** Lines 88-102. *)
Definition fetchBookings (r : Response) (st : State) : State :=
  fetchSettle r (fetchPending st).

(** Lines 155-157: the handler of the refresh button. *)
Definition refreshData (r : Response) (st : State) : State :=
  fetchBookings r st.

(** ** Days *)

Definition msPerDay : Z := 86400000.

(** A [dayjs] object: the invalid date (what [dayjs("")] is, for a picker
    that was cleared), or a moment, of which the model keeps

    - [reading], what the local clock shows at the moment, in milliseconds
      since 1970-01-01 00:00 on that clock: the time value of the [Date]
      plus the offset of the time zone at the moment;
    - [skew], what that offset differs by from the whole quarter-hour that
      [utcOffset()] rounds it to, in milliseconds: 0 in every time zone in
      use today.

    Readings are whole seconds within the range of a [Date], on which the
    arithmetic of [diff] on doubles is exact. *)
Inductive Dayjs : Type :=
  | InvalidDate
  | Moment (reading : Z) (skew : Z).

#[global] Instance Dayjs_eq_dec : EqDecision Dayjs.
Proof. solve_decision. Defined.

(** The local midnight of the calendar day [n], days being numbered from
    1970-01-01, in a zone whose offset is a whole quarter-hour. *)
Abbreviation LocalDay n := (Moment (n * msPerDay) 0).

(** The days a [Date] can hold: 100,000,000 days either side of the
    epoch, and one more for the offset of the time zone. *)
Definition maxDay : Z := 100000001.

(** [end.diff(start, 'day')]: the difference of the two time values, less
    the difference of the two rounded offsets, in days, cut toward zero;
    [NaN] when one of the two is invalid. In terms of readings: the
    difference of the readings, each less its skew. *)
Definition dayjs_diff_day (a b : Dayjs) : JsNumber :=
  match a, b with
  | Moment ta ka, Moment tb kb =>
      Num (Z.quot ((ta - ka) - (tb - kb)) msPerDay)
  | _, _ => NaN
  end.

(** [d.add(i, 'day')]: [setDate] on a copy, that is the moment whose local
    reading is that of [d] moved by [i] days; [localTime] is the time zone,
    which gives the moment of a requested reading (a later one when a clock
    change skips the reading; the invalid date outside the range of a
    [Date]). *)
Definition dayjs_add_day (localTime : Z → Dayjs) (d : Dayjs) (i : Z) : Dayjs :=
  match d with
  | Moment t _ => localTime (t + i * msPerDay)
  | InvalidDate => InvalidDate
  end.

(** [ToLength]: [NaN] and negative numbers give 0, large ones are cut at
    2^53 - 1. *)
Definition ToLength (x : JsNumber) : Z :=
  match x with
  | Num n => Z.max 0 (Z.min n (2 ^ 53 - 1))
  | NaN => 0
  end.

(** [Array.from({ length }, (_, index) => f(index))]: creating an array
    longer than 2^32 - 1 is a [RangeError]. *)
Definition Array_from_length {A : Type} (lengthProp : JsNumber) (f : Z → A)
  : Exc (list A) :=
  let len := ToLength lengthProp in
  if 2 ^ 32 - 1 <? len then Throw RangeError
  else Ok (map (λ index, f (Z.of_nat index)) (seq 0 (Z.to_nat len))).

(** Lines 120-144. *)
Definition times : list string :=
  [ "05:00 - 06:00";
    "06:00 - 07:00";
    "07:00 - 08:00";
    "08:00 - 09:00";
    "09:00 - 10:00";
    "10:00 - 11:00";
    "11:00 - 12:00";
    "14:00 - 15:00";
    "15:00 - 16:00";
    "16:00 - 17:00";
    "17:00 - 18:00";
    "18:00 - 19:00";
    "19:00 - 20:00";
    "20:00 - 21:00";
    "21:00 - 22:00";
    "22:00 - 23:00";
    "23:00 - 00:00";
    "00:00 - 01:00";
    "01:00 - 02:00";
    "02:00 - 03:00";
    "03:00 - 04:00";
    "04:00 - 05:00" ].

(** The names [Object.prototype] answers to: a read of one of them on a
    plain object that has no own property of that name finds the inherited
    member. *)
Definition Object_prototype_names : list string :=
  [ "constructor"; "hasOwnProperty"; "isPrototypeOf"; "propertyIsEnumerable";
    "toLocaleString"; "toString"; "valueOf"; "__proto__";
    "__defineGetter__"; "__defineSetter__";
    "__lookupGetter__"; "__lookupSetter__" ].

(** [obj[key]] on a plain object whose own properties are [obj]. Of an
    inherited member only its truthiness is observed. *)
Definition js_get (obj : Table) (key : string) : JsVal :=
  match obj !! key with
  | Some v => v
  | None =>
      if bool_decide (key ∈ Object_prototype_names)
      then JObj "function () { [native code] }"
      else JUndefined
  end.

Inductive CellStyle : Type :=
  | Reserved
  | Available.

#[global] Instance CellStyle_eq_dec : EqDecision CellStyle.
Proof. solve_decision. Defined.

Section Grid.

(** The two functions of the date library the component calls on
    strings, [dayjs(s)] and [d.format("YYYY-MM-DD")], and the time zone of
    the browser. *)
Variable dayjs : string → Dayjs.
Variable localTime : Z → Dayjs.
Variable format_YMD : Dayjs → string.

(** Lines 109-118. *)
Definition dates (st : State) : Exc (list Dayjs) :=
  let start := dayjs (startDate st) in
  let end_ := dayjs (endDate st) in
  let totalDays := number_add (dayjs_diff_day end_ start) (Num 1) in
  Array_from_length totalDays (λ index, dayjs_add_day localTime start index).

(** Lines 146-148. *)
Definition getBookingKey (date : Dayjs) (time : string) : string :=
  format_YMD date +:+ "_" +:+ time.

(** Lines 150-152. *)
Definition getBookingStatus (st : State) (date : Dayjs) (time : string)
  : JsVal :=
  js_get (bookings st) (getBookingKey date time).

(** Lines 284-297: the styling of one cell. *)
Definition cell (st : State) (date : Dayjs) (time : string) : CellStyle :=
  let bookingStatus := getBookingStatus st date time in
  let isBooked := js_truthy bookingStatus in
  if isBooked then Reserved else Available.

(** Lines 276-315: one row per time slot, one cell per day. *)
Definition grid (st : State) : Exc (list (string * list CellStyle)) :=
  days ← dates st;
  mret (map (λ time, (time, map (λ date, cell st date time) days)) times).

End Grid.

(** ** The date library on ISO day strings *)

(** An instance of the library functions, used to run the component on
    concrete dates: the proleptic Gregorian calendar on strings of the
    shape [YYYY-MM-DD], which is what both pickers and the initial state
    produce, in a time zone without clock changes. The library reads some
    strings of other shapes as dates too; the instance answers the invalid
    date for all of them, and is applied to none. *)
Module Iso.

(** Day number of a civil date; the month and the day may overflow, as in
    [new Date(y, m - 1, d)], which also reads a year from 0 to 99 as a
    year of the 20th century. *)
Definition days_from_civil (y m d : Z) : Z :=
  let y := if (0 <=? y) && (y <=? 99) then 1900 + y else y in
  let y := y + (m - 1) / 12 in
  let m := (m - 1) mod 12 + 1 in
  let y := if m <=? 2 then y - 1 else y in
  let era := y / 400 in
  let yoe := y - era * 400 in
  let mp := if 2 <? m then m - 3 else m + 9 in
  let doy := (153 * mp + 2) / 5 + d - 1 in
  let doe := yoe * 365 + yoe / 4 - yoe / 100 + doy in
  era * 146097 + doe - 719468.

Definition civil_from_days (z : Z) : Z * Z * Z :=
  let z := z + 719468 in
  let era := z / 146097 in
  let doe := z - era * 146097 in
  let yoe := (doe - doe / 1460 + doe / 36524 - doe / 146096) / 365 in
  let y := yoe + era * 400 in
  let doy := doe - (365 * yoe + yoe / 4 - yoe / 100) in
  let mp := (5 * doy + 2) / 153 in
  let d := doy - (153 * mp + 2) / 5 + 1 in
  let m := if mp <? 10 then mp + 3 else mp - 9 in
  (if m <=? 2 then y + 1 else y, m, d).

Definition digit (c : ascii) : option Z := Z.of_nat <$> Ascii.is_nat c.

Fixpoint number (cs : list ascii) (acc : Z) : option Z :=
  match cs with
  | [] => Some acc
  | c :: cs => v ← digit c; number cs (10 * acc + v)
  end.

(** The day number a string of the shape [YYYY-MM-DD] stands for. *)
Definition civil_day (s : string) : option Z :=
  match s with
  | String y1 (String y2 (String y3 (String y4 (String "-"
     (String m1 (String m2 (String "-" (String d1 (String d2 ""))))))))) =>
      match number [y1; y2; y3; y4] 0, number [m1; m2] 0, number [d1; d2] 0 with
      | Some y, Some m, Some d => Some (days_from_civil y m d)
      | _, _, _ => None
      end
  | _ => None
  end.

(** [dayjs(s)] in the time zone [localTime]: the moment of the midnight
    of the day. *)
Definition parse (localTime : Z → Dayjs) (s : string) : Dayjs :=
  match civil_day s with
  | Some n => localTime (n * msPerDay)
  | None => InvalidDate
  end.

(** The moment of a reading within the range of a [Date], at a whole
    quarter-hour offset. *)
Definition timeClip (t : Z) : Dayjs :=
  if (- maxDay * msPerDay <=? t) && (t <=? maxDay * msPerDay)
  then Moment t 0 else InvalidDate.

(** A time zone without clock changes: every reading is on the clock. *)
Definition localTime (t : Z) : Dayjs := timeClip t.

Definition dayjs (s : string) : Dayjs := parse localTime s.

Fixpoint padStart_go (width fuel : nat) (s : string) : string :=
  match fuel with
  | O => s
  | S fuel =>
      if (String.length s <? width)%nat
      then padStart_go width fuel ("0" +:+ s) else s
  end.

(** [padStart(s, width, '0')] *)
Definition padStart (width : nat) (s : string) : string :=
  padStart_go width width s.

Definition format_YMD (d : Dayjs) : string :=
  match d with
  | InvalidDate => "Invalid Date"
  | Moment t _ =>
      let '(y, m, dd) := civil_from_days (t / msPerDay) in
      padStart 4 (pretty y) +:+ "-" +:+ padStart 2 (pretty m)
        +:+ "-" +:+ padStart 2 (pretty dd)
  end.

End Iso.

(** The time zone Africa/Cairo around 26 April 2024, the day the clocks
    went from 00:00 to 01:00: the readings of that hour are skipped, and
    the moment of one of them is an hour later. *)
Module Cairo.

Definition skippedFrom : Z := 19839 * msPerDay.

Definition localTime (t : Z) : Dayjs :=
  if (skippedFrom <=? t) && (t <? skippedFrom + 3600000)
  then Iso.timeClip (t + 3600000) else Iso.timeClip t.

Definition dayjs (s : string) : Dayjs := Iso.parse localTime s.

End Cairo.

(** ** The label in the words of the specification *)

(** Two decimal digits, zero-padded. *)
Definition two_digits (n : Z) : string :=
  String (pretty_N_char (Z.to_N (n / 10)))
    (String (pretty_N_char (Z.to_N (n mod 10))) "").

(** [HH:00 - HH:00] with start = hour and end = hour + 1. *)
Definition spec_label (hour : Z) : string :=
  two_digits hour +:+ ":00 - " +:+ two_digits (hour + 1) +:+ ":00".

(** [HH:00 - HH:00] for an hour of the clock: the end wraps at midnight. *)
Definition clock_label (hour : Z) : string :=
  two_digits hour +:+ ":00 - " +:+ two_digits ((hour + 1) mod 24) +:+ ":00".

(** The booked field written last under [key], if a record has that key. *)
Fixpoint lastWrite (key : string) (slots : list Slot) : option JsVal :=
  match slots with
  | [] => None
  | slot :: rest =>
      match lastWrite key rest with
      | Some v => Some v
      | None => if decide (slotKey slot = key) then Some (slot_booked slot) else None
      end
  end.

(** A payload whose collection holds the given records. *)
Definition payload (slots : list Slot) : ApiData :=
  DataSlots (ERecord <$> slots).

(** The characters of a string, last one first. *)
Definition rchars (s : string) : list ascii := rev (list_ascii_of_string s).

(** Characters that are neither a space nor an underscore, the two
    separators of a key. *)
Definition plain_char (c : ascii) : bool :=
  negb (Ascii.eqb c " ") && negb (Ascii.eqb c "_").

Definition plain (s : string) : Prop :=
  Forall (λ c, plain_char c = true) (list_ascii_of_string s).

(** ** The component as a machine *)

(** Lines 62-63 and 196, 206: the setters of the range, which the two
    pickers call with the date string chosen. *)
Definition setStartDate (dateStr : string) (st : State) : State :=
  mkState dateStr (endDate st) (bookings st) (loading st) (error st).
Definition setEndDate (dateStr : string) (st : State) : State :=
  mkState (startDate st) dateStr (bookings st) (loading st) (error st).

(** Lines 62-66: the state at the mount, [now] being [dayjs()]: now and
    now plus six days, formatted. *)
Definition mountState (localTime : Z → Dayjs) (format_YMD : Dayjs → string)
    (now : Dayjs) : State :=
  initialState (format_YMD now) (format_YMD (dayjs_add_day localTime now 6)).

(** What happens to the component: a date is picked, a request is sent
    (the effect of the mount, line 106, or a click on the refresh button,
    line 211), a request settles. *)
Inductive Event : Type :=
  | StartPicked (dateStr : string)
  | EndPicked (dateStr : string)
  | RequestSent
  | RequestSettled (r : Response).

Definition handle (st : State) (ev : Event) : State :=
  match ev with
  | StartPicked dateStr => setStartDate dateStr st
  | EndPicked dateStr => setEndDate dateStr st
  | RequestSent => fetchPending st
  | RequestSettled r => fetchSettle r st
  end.

Definition run (st : State) (evs : list Event) : State := foldl handle st evs.

(** The invariant of the component: the error is absent or the fixed
    message, and every key of the table is the key of a record. *)
Definition well_formed (st : State) : Prop :=
  (error st = None ∨ error st = Some errorMessage)
  ∧ ∀ key, is_Some (bookings st !! key) → ∃ slot, key = slotKey slot.

(** Line 212: [disabled={loading}]. *)
Definition refreshDisabled (st : State) : bool := loading st.

(** Lines 232-241: [{error && (...)}], the text of the banner when one is
    rendered. *)
Definition errorBanner (st : State) : option string :=
  match error st with
  | Some message => if String.eqb message "" then None else Some message
  | None => None
  end.

(** ** The date picker input *)

(** The flatpickr instances alive on the page, by instance number; of an
    instance the model keeps the [defaultDate] it was created with. *)
Abbreviation Page := (gmap nat string).

(** Lines 29-36: [flatpickr(inputRef.current, { defaultDate: value, ... })]. *)
Definition flatpickr (defaultDate : string) (page : Page) : nat * Page :=
  let fp := fresh (dom page) in (fp, <[fp := defaultDate]> page).

(** [fp.destroy()] *)
Definition destroy (fp : nat) (page : Page) : Page := delete fp page.

(** Lines 27-39, the body of the effect: the instance its cleanup will
    destroy, if it returns a cleanup. *)
Definition pickerEffect (refCurrent : bool) (value : string) (page : Page)
  : option nat * Page :=
  if refCurrent then
    let '(fp, page') := flatpickr value page in (Some fp, page')
  else (None, page).

(** Line 37: [() => fp.destroy()]. *)
Definition pickerCleanup (cleanup : option nat) (page : Page) : Page :=
  match cleanup with
  | Some fp => destroy fp page
  | None => page
  end.

(** A mounted [FlatpickrInput]: the dependencies of its effect at the last
    run (line 39; the callback by its identity) and the pending cleanup. *)
Record Picker : Type := mkPicker {
  picker_value : string;
  picker_onChange : nat;
  picker_cleanup : option nat
}.

(** The mount: the input is rendered, so the ref holds it when the effect
    runs. *)
Definition mountPicker (value : string) (onChange : nat) (page : Page)
  : Picker * Page :=
  let '(cleanup, page') := pickerEffect true value page in
  (mkPicker value onChange cleanup, page').

(** A render with new props: when a dependency changed, the cleanup of the
    last run and then the effect. *)
Definition renderPicker (value : string) (onChange : nat)
    (mounted : Picker * Page) : Picker * Page :=
  let '(picker, page) := mounted in
  if decide (value = picker_value picker ∧ onChange = picker_onChange picker)
  then (picker, page)
  else
    let page1 := pickerCleanup (picker_cleanup picker) page in
    let '(cleanup, page2) := pickerEffect true value page1 in
    (mkPicker value onChange cleanup, page2).

Definition unmountPicker (mounted : Picker * Page) : Page :=
  pickerCleanup (picker_cleanup mounted.1) mounted.2.

(** * Properties *)

(** ** Runs on concrete inputs *)

Example slotKey_example :
  slotKey (mkSlot (JStr "2024-06-01") (JNumber (Num 9)) (JStr "yes"))
  = "2024-06-01_09:00 - 10:00".
Proof. reflexivity. Qed.

Example iso_dayjs_example : Iso.dayjs "2024-06-01" = LocalDay 19875.
Proof. reflexivity. Qed.

Example iso_format_example : Iso.format_YMD (LocalDay 19875) = "2024-06-01".
Proof. reflexivity. Qed.

Example iso_two_digit_year_example :
  Iso.dayjs "0050-01-01" = LocalDay (-7305)
  ∧ Iso.format_YMD (LocalDay (-7305)) = "1950-01-01"
  ∧ Iso.padStart 4 "50" = "0050".
Proof. split_and!; vm_compute; reflexivity. Qed.

Example cairo_dayjs_example :
  Cairo.dayjs "2024-04-25" = LocalDay 19838
  ∧ Cairo.dayjs "2024-04-26" = Moment (19839 * msPerDay + 3600000) 0
  ∧ Cairo.dayjs "2024-04-27" = LocalDay 19840.
Proof. split_and!; vm_compute; reflexivity. Qed.

Example iso_dates_example :
  dates Iso.dayjs Iso.localTime (mkState "2024-02-27" "2024-03-01" ∅ false None)
  = Ok [LocalDay 19780; LocalDay 19781; LocalDay 19782; LocalDay 19783].
Proof. reflexivity. Qed.

(** The example of the specification, on a grid of one day: after the
    fetch the row of 09:00 is reserved and every other row is available. *)
Example grid_example :
  grid Iso.dayjs Iso.localTime Iso.format_YMD
    (fetchBookings
       (HttpResponse 200
          (DataSlots [ERecord (mkSlot (JStr "2024-06-01") (JNumber (Num 9)) (JStr "yes"))]))
       (initialState "2024-06-01" "2024-06-01"))
  = Ok ((λ time, (time, [if decide (time = "09:00 - 10:00")
                         then Reserved else Available])) <$> times).
Proof. vm_compute. reflexivity. Qed.

Example iso_dates_format_example :
  (map Iso.format_YMD <$> dates Iso.dayjs Iso.localTime (mkState "2024-02-27" "2024-03-01" ∅ false None))
  = Ok ["2024-02-27"; "2024-02-28"; "2024-02-29"; "2024-03-01"].
Proof. reflexivity. Qed.

(** ** The transformation on a collection of records *)

Section Transformation.

Implicit Types (slots : list Slot) (converted : Table) (key : string).

Lemma forEach_records slots converted :
  forEach (ERecord <$> slots) converted = Ok (foldl write converted slots).
Proof.
  revert converted. induction slots as [|slot rest IH]; intros converted.
  - reflexivity.
  - cbn. apply IH.
Qed.

Lemma lookup_foldl_write slots converted key :
  foldl write converted slots !! key
  = match lastWrite key slots with
    | Some v => Some v
    | None => converted !! key
    end.
Proof.
  revert converted. induction slots as [|slot rest IH]; intros converted.
  - reflexivity.
  - cbn [foldl lastWrite]. rewrite IH.
    destruct (lastWrite key rest) as [v|]; [reflexivity|].
    unfold write. destruct (decide (slotKey slot = key)) as [<-|Hne].
    + apply lookup_insert_eq.
    + apply lookup_insert_ne, Hne.
Qed.

Lemma lastWrite_Some key slots v :
  lastWrite key slots = Some v →
  ∃ slot, slot ∈ slots ∧ slotKey slot = key ∧ slot_booked slot = v.
Proof.
  induction slots as [|slot rest IH]; cbn; [discriminate|].
  destruct (lastWrite key rest) as [w|].
  - intros [= <-]. destruct IH as (s & ? & ? & ?); [reflexivity|].
    exists s. split_and!; [by right|done..].
  - destruct (decide (slotKey slot = key)); [|discriminate].
    intros [= <-]. exists slot. split_and!; [by left|done..].
Qed.

Lemma lastWrite_is_Some key slots :
  key ∈ slotKey <$> slots → is_Some (lastWrite key slots).
Proof.
  induction slots as [|slot rest IH]; cbn.
  - intros H. inversion H.
  - intros [->|Hin]%elem_of_cons.
    + destruct (lastWrite (slotKey slot) rest); [eauto|].
      rewrite decide_True by done. eauto.
    + destruct (IH Hin) as [v ->]. eauto.
Qed.

Lemma lastWrite_NoDup slots slot :
  NoDup (slotKey <$> slots) → slot ∈ slots →
  lastWrite (slotKey slot) slots = Some (slot_booked slot).
Proof.
  induction slots as [|s rest IH]; cbn.
  - intros _ H. inversion H.
  - intros [Hnotin Hnd]%NoDup_cons [->|Hin]%elem_of_cons.
    + destruct (lastWrite (slotKey s) rest) as [v|] eqn:E.
      * apply lastWrite_Some in E as (s' & Hs' & Hk & _).
        exfalso. apply Hnotin. rewrite <- Hk. by apply list_elem_of_fmap_2.
      * by rewrite decide_True.
    + rewrite (IH Hnd Hin). reflexivity.
Qed.

Lemma size_foldl_write slots converted :
  NoDup (slotKey <$> slots) →
  (∀ slot, slot ∈ slots → converted !! slotKey slot = None) →
  size (foldl write converted slots) = (size converted + length slots)%nat.
Proof.
  revert converted. induction slots as [|s rest IH]; intros converted; cbn.
  - intros _ _. lia.
  - intros [Hnotin Hnd]%NoDup_cons Hfresh.
    rewrite IH; [|done|].
    + unfold write. rewrite map_size_insert_None; [lia|].
      apply Hfresh. by left.
    + intros slot Hin. unfold write. rewrite lookup_insert_ne.
      * apply Hfresh. by right.
      * intros Heq. apply Hnotin. rewrite Heq. by apply list_elem_of_fmap_2.
Qed.

(** The transformation of a collection of records never throws; the
    table it returns answers every key with the last write under it. *)
Lemma convertApiResponse_payload slots :
  convertApiResponse (payload slots) = Ok (foldl write ∅ slots).
Proof. apply forEach_records. Qed.

Lemma convertApiResponse_lookup slots key :
  foldl write ∅ slots !! key = lastWrite key slots.
Proof.
  rewrite lookup_foldl_write, lookup_empty.
  by destruct (lastWrite key slots).
Qed.

End Transformation.

(** ** Labels *)

Lemma padStart2_pretty (h : Z) :
  0 ≤ h ≤ 99 → padStart2 (pretty h) = two_digits h.
Proof.
  intros Hh. rewrite <- (Z2Nat.id h) by lia.
  assert (Z.to_nat h < 100)%nat as Hn by lia.
  revert Hn. generalize (Z.to_nat h). clear h Hh. intros n Hn.
  do 100 (destruct n as [|n]; [vm_compute; reflexivity|]). lia.
Qed.

(** On the hours of a day the label the code builds is the one the
    specification describes: start = hour, end = hour + 1, two digits
    each. *)
Lemma timeRange_spec_label (date booked : JsVal) (h : Z) :
  0 ≤ h ≤ 98 →
  timeRange (mkSlot date (JNumber (Num h)) booked) = spec_label h.
Proof.
  intros Hh. unfold timeRange, spec_label. cbn.
  rewrite !padStart2_pretty by lia. reflexivity.
Qed.

(** ** C1: one entry per record *)

(** C1, as stated, fails: two records of one date and hour share their key,
    the second assignment overwrites the first, and the table has one
    entry for two records, holding the booked field of the second. *)
Lemma convertApiResponse_shared_key_counterexample :
  let first := mkSlot (JStr "2024-06-01") (JNumber (Num 9)) (JStr "yes") in
  let second := mkSlot (JStr "2024-06-01") (JNumber (Num 9)) (JStr "no") in
  ∃ table : Table,
    convertApiResponse (payload [first; second]) = Ok table
    ∧ size table = 1%nat
    ∧ length [first; second] = 2%nat
    ∧ table !! slotKey first ≠ Some (slot_booked first).
Proof.
  eexists. split; [apply convertApiResponse_payload|].
  split_and!; [by vm_compute| reflexivity |].
  rewrite convertApiResponse_lookup. by vm_compute.
Qed.

(** C1 (amended): for every collection of records whose keys are pairwise
    distinct, the transformation returns a table with exactly one entry per
    record: the entry of a record is under its key, the record's date
    followed by ['_'] and the label of its hour, and holds the record's
    booked field, and the table has no other entry. For an hour of the day
    the label is [HH:00 - HH:00] with start = hour and end = hour + 1, and
    the record [{date: "2024-06-01", hour: 9, booked: "yes"}] has the key
    ["2024-06-01_09:00 - 10:00"]. *)
Theorem convertApiResponse_one_entry_per_record (slots : list Slot) :
  NoDup (slotKey <$> slots) →
  ∃ table : Table,
    convertApiResponse (payload slots) = Ok table
    ∧ size table = length slots
    ∧ (∀ slot, slot ∈ slots → table !! slotKey slot = Some (slot_booked slot))
    ∧ (∀ key v, table !! key = Some v →
         ∃ slot, slot ∈ slots ∧ slotKey slot = key ∧ slot_booked slot = v)
    ∧ (∀ slot date h, slot ∈ slots →
         slot_date slot = JStr date → slot_hour slot = JNumber (Num h) →
         0 ≤ h ≤ 23 →
         slotKey slot = date +:+ "_" +:+ spec_label h)
    ∧ slotKey (mkSlot (JStr "2024-06-01") (JNumber (Num 9)) (JStr "yes"))
      = "2024-06-01_09:00 - 10:00".
Proof.
  intros Hdistinct. exists (foldl write ∅ slots).
  split; [apply convertApiResponse_payload|]. split_and!.
  - rewrite size_foldl_write; [by rewrite map_size_empty| done |].
    intros; apply lookup_empty.
  - intros slot Hin. rewrite convertApiResponse_lookup.
    by apply lastWrite_NoDup.
  - intros key v. rewrite convertApiResponse_lookup. apply lastWrite_Some.
  - intros [d hr b] date h _ Hd Hh Hrange. cbn in Hd, Hh. subst d hr.
    unfold slotKey. cbn [slot_date js_String].
    rewrite timeRange_spec_label by lia. reflexivity.
  - reflexivity.
Qed.

Lemma convertApiResponse_one_entry_per_record_witness :
  ∃ table : Table,
    convertApiResponse
      (payload [mkSlot (JStr "2024-06-01") (JNumber (Num 9)) (JStr "yes");
                mkSlot (JStr "2024-06-01") (JNumber (Num 10)) (JStr "yes")])
    = Ok table
    ∧ size table = 2%nat.
Proof.
  destruct (convertApiResponse_one_entry_per_record
              [mkSlot (JStr "2024-06-01") (JNumber (Num 9)) (JStr "yes");
               mkSlot (JStr "2024-06-01") (JNumber (Num 10)) (JStr "yes")])
    as (table & Hrun & Hsize & _).
  - apply (bool_decide_unpack _). vm_compute. reflexivity.
  - exists table. split; [exact Hrun | exact Hsize].
Defined.

(** ** Strings read from their end *)

Section Strings.

Implicit Types (s t : string) (c : ascii).

Lemma chars_app s t :
  list_ascii_of_string (s +:+ t)
  = list_ascii_of_string s ++ list_ascii_of_string t.
Proof.
  induction s as [|c s IH]; [reflexivity|].
  change (String c s +:+ t) with (String c (s +:+ t)).
  cbn. by rewrite IH.
Qed.

Lemma rchars_app s t : rchars (s +:+ t) = rchars t ++ rchars s.
Proof. unfold rchars. by rewrite chars_app, rev_app_distr. Qed.

Lemma rchars_inj s t : rchars s = rchars t → s = t.
Proof.
  unfold rchars. intros H.
  rewrite <- (string_of_list_ascii_of_string s),
          <- (string_of_list_ascii_of_string t).
  f_equal. rewrite <- (rev_involutive (list_ascii_of_string s)), H.
  apply rev_involutive.
Qed.

(** A padded string ends as the string itself does. *)
Lemma rchars_padStart2 s : ∃ zeros, rchars (padStart2 s) = rchars s ++ zeros.
Proof.
  destruct s as [|c [|c' s]].
  - by exists ["0"; "0"]%char.
  - by exists ["0"]%char.
  - exists []. by rewrite app_nil_r.
Qed.

Lemma padStart2_two_chars s c1 c2 :
  c1 ≠ "0"%char →
  padStart2 s = String c1 (String c2 "") → s = String c1 (String c2 "").
Proof.
  destruct s as [|c [|c' s]]; cbn; intros Hc [=]; by subst.
Qed.

(** Cutting at the first separator: two texts with no separator in them,
    each followed by the separator, agree when the whole strings do. *)
Lemma cut_at_separator (sep : ascii) (a b x y : list ascii) :
  sep ∉ a → sep ∉ b → a ++ sep :: x = b ++ sep :: y → a = b ∧ x = y.
Proof.
  revert b. induction a as [|c a IH]; intros [|c' b] Ha Hb Heq; cbn in Heq.
  - by simplify_eq.
  - simplify_eq. exfalso. apply Hb. by left.
  - simplify_eq. exfalso. apply Ha. by left.
  - injection Heq as -> Heq. apply not_elem_of_cons in Ha as [_ Ha].
    apply not_elem_of_cons in Hb as [_ Hb].
    destruct (IH b Ha Hb Heq) as [-> ->]. done.
Qed.

End Strings.

(** ** Printed integers *)

Section Printed.

Lemma plain_String c s : plain_char c = true → plain s → plain (String c s).
Proof. intros Hc Hs. unfold plain. cbn. by constructor. Qed.

Lemma pretty_N_char_plain x : plain_char (pretty_N_char x) = true.
Proof. unfold pretty_N_char. by repeat case_match. Qed.

Lemma pretty_N_go_plain (x : N) (s : string) :
  plain s → plain (pretty_N_go x s).
Proof.
  revert s. induction (N.lt_wf_0 x) as [x _ IH]; intros s Hs.
  destruct (decide (x = 0)%N) as [->|Hx].
  - by rewrite pretty_N_go_0.
  - rewrite pretty_N_go_step by lia. apply IH.
    + apply N.div_lt; lia.
    + apply plain_String; [apply pretty_N_char_plain | done].
Qed.

Lemma pretty_N_plain (x : N) : plain (pretty x).
Proof.
  unfold pretty, pretty_N. case_decide.
  - by repeat constructor.
  - apply pretty_N_go_plain. constructor.
Qed.

Lemma pretty_Z_plain (n : Z) : plain (pretty n).
Proof.
  destruct n as [|p|p]; unfold pretty, pretty_Z.
  - by repeat constructor.
  - apply pretty_N_plain.
  - apply plain_String; [done | apply pretty_N_plain].
Qed.

Lemma padStart2_plain s : plain s → plain (padStart2 s).
Proof.
  destruct s as [|c [|c' s]]; cbn; intros H.
  - by repeat constructor.
  - by apply plain_String.
  - done.
Qed.

Lemma plain_no_char (sep : ascii) s :
  plain_char sep = false → plain s → sep ∉ rchars s.
Proof.
  intros Hsep Hs Hin. unfold rchars in Hin.
  apply list_elem_of_In, in_rev, list_elem_of_In in Hin.
  unfold plain in Hs. rewrite Forall_forall in Hs.
  specialize (Hs _ Hin). congruence.
Qed.

End Printed.

(** ** Keys *)

Section Keys.

Variable format_YMD : Dayjs → string.

Lemma rchars_slotKey (slot : Slot) :
  rchars (slotKey slot)
  = ["0"; "0"; ":"]%char
    ++ rchars (padStart2 (js_String (js_add_one (slot_hour slot))))
    ++ [" "; "-"; " "; "0"; "0"; ":"]%char
    ++ rchars (padStart2 (js_String (slot_hour slot)))
    ++ "_"%char :: rchars (js_String (slot_date slot)).
Proof.
  unfold slotKey, timeRange. rewrite !rchars_app, <- !app_assoc. reflexivity.
Qed.

Lemma rchars_getBookingKey (date : Dayjs) (time : string) :
  rchars (getBookingKey format_YMD date time)
  = rchars time ++ "_"%char :: rchars (format_YMD date).
Proof.
  unfold getBookingKey. rewrite !rchars_app, <- !app_assoc. reflexivity.
Qed.

(** Every key the transformation writes ends in [":00"]: it is never
    ["__proto__"], so the assignment of line 80 always writes an own
    property. *)
Lemma slotKey_not_proto (slot : Slot) : slotKey slot ≠ "__proto__".
Proof.
  intros H%(f_equal rchars). rewrite rchars_slotKey in H. discriminate H.
Qed.

Lemma times_end (time : string) :
  time ∈ times → ∃ front, rchars time = "0"%char :: front.
Proof.
  unfold times. intros H.
  repeat (apply elem_of_cons in H as [->|H]; [eexists; reflexivity|]).
  inversion H.
Qed.

(** No key of a grid cell is the name of an inherited member, so reading
    it finds an own property or nothing. *)
Lemma getBookingKey_not_inherited (date : Dayjs) (time : string) :
  time ∈ times → getBookingKey format_YMD date time ∉ Object_prototype_names.
Proof.
  intros [front Hfront]%times_end Hin.
  assert (∃ c rest, c ≠ "0"%char
            ∧ rchars (getBookingKey format_YMD date time) = c :: rest)
    as (c & rest & Hc & Hkey).
  { unfold Object_prototype_names in Hin.
    repeat (apply elem_of_cons in Hin as [->|Hin];
            [eexists _, _; split; [|reflexivity]; discriminate|]).
    inversion Hin. }
  rewrite rchars_getBookingKey, Hfront in Hkey. cbn in Hkey. congruence.
Qed.

Lemma js_get_cell (table : Table) (date : Dayjs) (time : string) :
  time ∈ times →
  js_get table (getBookingKey format_YMD date time)
  = default JUndefined (table !! getBookingKey format_YMD date time).
Proof.
  intros Hin. unfold js_get.
  destruct (table !! _); [reflexivity|].
  rewrite bool_decide_eq_false_2; [reflexivity|].
  by apply getBookingKey_not_inherited.
Qed.

(** No record, whatever its fields hold, is written under the key of a
    cell of the row ["23:00 - 00:00"]. *)
Lemma midnight_key_unwritten (slot : Slot) (front : string) :
  slotKey slot ≠ front +:+ "_" +:+ "23:00 - 00:00".
Proof.
  intros Heq%(f_equal rchars). rewrite rchars_slotKey in Heq.
  rewrite !rchars_app, <- !app_assoc in Heq.
  change (rchars "23:00 - 00:00")
    with (["0"; "0"; ":"; "0"; "0"] ++ [" "; "-"; " "; "0"; "0"; ":"; "3"; "2"])%char
    in Heq.
  change (rchars "_") with ["_"%char] in Heq.
  cbn [app] in Heq. injection Heq as Heq.
  destruct slot as [date hour booked]. cbn [slot_hour slot_date] in Heq.
  destruct hour as [| |[|]|[n|]|s|s];
    try (vm_compute in Heq; discriminate Heq).
  - (* an integer: both ends of the label are digits *)
    cbn [js_add_one js_String number_add number_to_string] in Heq.
    apply (cut_at_separator " "%char _ ["0"; "0"]%char) in Heq as [Hend Heq];
      [| apply plain_no_char; [done | apply padStart2_plain, pretty_Z_plain]
       | by apply (bool_decide_unpack _) ].
    injection Heq as Heq.
    apply (cut_at_separator "_"%char _ ["3"; "2"]%char) in Heq as [Hstart _];
      [| apply plain_no_char; [done | apply padStart2_plain, pretty_Z_plain]
       | by apply (bool_decide_unpack _) ].
    apply (rchars_inj _ "23"), padStart2_two_chars in Hstart; [|done].
    assert (n = 23) as ->.
    { apply (inj (pretty (A:=Z))). rewrite Hstart. by vm_compute. }
    vm_compute in Hend. discriminate Hend.
  - (* a string: the end of the label ends in the appended "1" *)
    cbn [js_add_one js_String] in Heq.
    destruct (rchars_padStart2 (s +:+ "1")) as [zeros Hz].
    rewrite Hz, rchars_app in Heq. discriminate Heq.
  - cbn [js_add_one js_String] in Heq.
    destruct (rchars_padStart2 (s +:+ "1")) as [zeros Hz].
    rewrite Hz, rchars_app in Heq. discriminate Heq.
Qed.

End Keys.

(** ** The cell test and the fetch, in closed form *)

Lemma cell_test_Reserved (format_YMD : Dayjs → string) (st : State)
    (date : Dayjs) (time : string) :
  time ∈ times →
  cell format_YMD st date time = Reserved
  ↔ ∃ v, bookings st !! (format_YMD date +:+ "_" +:+ time) = Some v
         ∧ js_truthy v = true.
Proof.
  intros Hin. unfold cell, getBookingStatus.
  rewrite js_get_cell by done. unfold getBookingKey.
  destruct (bookings st !! _) as [v|]; cbn.
  - destruct (js_truthy v) eqn:Ht; split; try done.
    + intros _. by exists v.
    + intros (w & [= <-] & Hw). congruence.
  - split; [done|]. intros (w & [=] & _).
Qed.

Lemma cell_test_Available (format_YMD : Dayjs → string) (st : State)
    (date : Dayjs) (time : string) :
  cell format_YMD st date time = Available
  ↔ cell format_YMD st date time ≠ Reserved.
Proof. destruct (cell format_YMD st date time); split; congruence. Qed.

Lemma axios_get_2xx (status : Z) (data : ApiData) :
  200 ≤ status ≤ 299 → axios_get (HttpResponse status data) = Ok data.
Proof.
  intros H. cbn. destruct (200 <=? status) eqn:E1, (status <? 300) eqn:E2;
    cbn; try reflexivity; lia.
Qed.

Lemma axios_get_not_2xx (status : Z) (data : ApiData) :
  ¬ 200 ≤ status ≤ 299 →
  axios_get (HttpResponse status data) = Throw AxiosError.
Proof.
  intros H. cbn. destruct (200 <=? status) eqn:E1, (status <? 300) eqn:E2;
    cbn; try reflexivity; lia.
Qed.

(** A fetch whose request resolves and whose body converts: the table is
    replaced, the error stays cleared. *)
Lemma fetchBookings_converted (status : Z) (data : ApiData) (table : Table)
    (st : State) :
  200 ≤ status ≤ 299 → convertApiResponse data = Ok table →
  fetchBookings (HttpResponse status data) st
  = mkState (startDate st) (endDate st) table false None.
Proof.
  intros Hs Hc. unfold fetchBookings, fetchSettle.
  rewrite axios_get_2xx by done. unfold mbind, Exc_bind. rewrite Hc.
  reflexivity.
Qed.

(** A fetch that ends in the [catch] block: the message is set, the table
    is the one held before. *)
Lemma fetchBookings_caught (r : Response) (e : JsError) (st : State) :
  (data ← axios_get r; convertApiResponse data) = Throw e →
  fetchBookings r st
  = mkState (startDate st) (endDate st) (bookings st) false (Some errorMessage).
Proof.
  intros Hc. unfold fetchBookings, fetchSettle. rewrite Hc. reflexivity.
Qed.

(** ** C2: when a cell is reserved *)

(** C2: a cell (date, time) of the grid is rendered reserved exactly when
    its key, the formatted date followed by ['_'] and the time, is in the
    lookup table with a truthy value, and available otherwise. *)
Theorem cell_reserved_iff (format_YMD : Dayjs → string) (st : State)
    (date : Dayjs) (time : string) :
  time ∈ times →
  (cell format_YMD st date time = Reserved
   ↔ ∃ v, bookings st !! getBookingKey format_YMD date time = Some v
          ∧ js_truthy v = true)
  ∧ (cell format_YMD st date time = Available
     ↔ ¬ ∃ v, bookings st !! getBookingKey format_YMD date time = Some v
              ∧ js_truthy v = true)
  ∧ getBookingKey format_YMD date time = format_YMD date +:+ "_" +:+ time.
Proof.
  intros Hin. split_and!.
  - by apply cell_test_Reserved.
  - rewrite cell_test_Available. by rewrite cell_test_Reserved.
  - reflexivity.
Qed.

Lemma cell_reserved_iff_witness :
  cell Iso.format_YMD
    (mkState "2024-06-01" "2024-06-07"
       {[ "2024-06-01_09:00 - 10:00" := JStr "yes" ]} false None)
    (LocalDay 19875) "09:00 - 10:00"
  = Reserved.
Proof.
  apply (proj1 (cell_reserved_iff Iso.format_YMD _ (LocalDay 19875)
                  "09:00 - 10:00"
                  ltac:(apply (bool_decide_unpack _); vm_compute; reflexivity))).
  exists (JStr "yes"). split; vm_compute; reflexivity.
Defined.

(** ** C3: the row of 23:00 *)

(** C3: a record of hour 23 is stored under the key of its date followed by
    ["_23:00 - 24:00"]; the time-slot list has no such label, its label for
    that hour being ["23:00 - 00:00"]; so no cell of the grid has the key
    of the record, and after the fetch of a response that holds the record
    the cell of the row ["23:00 - 00:00"] is rendered available for every
    day, whatever else the response holds and whatever was shown before. *)
Theorem hour_23_rendered_available (format_YMD : Dayjs → string)
    (slots : list Slot) (slot : Slot) (st : State) :
  slot ∈ slots →
  slot_hour slot = JNumber (Num 23) →
  slotKey slot = js_String (slot_date slot) +:+ "_23:00 - 24:00"
  ∧ is_Some (bookings (fetchBookings (HttpResponse 200 (payload slots)) st)
               !! slotKey slot)
  ∧ ("23:00 - 24:00" ∉ times)
  ∧ clock_label 23 = "23:00 - 00:00" ∧ "23:00 - 00:00" ∈ times
  ∧ (∀ date time, time ∈ times →
       getBookingKey format_YMD date time ≠ slotKey slot)
  ∧ (∀ date,
       cell format_YMD (fetchBookings (HttpResponse 200 (payload slots)) st)
         date "23:00 - 00:00" = Available).
Proof.
  intros Hin Hhour.
  assert (slotKey slot = js_String (slot_date slot) +:+ "_23:00 - 24:00")
    as Hkey.
  { destruct slot as [d h b]. cbn in Hhour. subst h. reflexivity. }
  rewrite (fetchBookings_converted 200 _ (foldl write ∅ slots))
    by (lia || apply convertApiResponse_payload).
  cbn [bookings].
  assert ("23:00 - 00:00" ∈ times) as Hrow
    by (apply (bool_decide_unpack _); vm_compute; reflexivity).
  split_and!.
  - exact Hkey.
  - rewrite convertApiResponse_lookup.
    apply lastWrite_is_Some. by apply list_elem_of_fmap_2.
  - apply (bool_decide_unpack _). vm_compute. reflexivity.
  - reflexivity.
  - exact Hrow.
  - intros date time Htime Heq%(f_equal rchars).
    rewrite Hkey, rchars_getBookingKey, !rchars_app in Heq.
    change (rchars "_23:00 - 24:00")
      with (rchars "23:00 - 24:00" ++ rchars "_") in Heq.
    rewrite <- !app_assoc in Heq. cbn [app] in Heq.
    apply cut_at_separator in Heq as [Heq _].
    + apply rchars_inj in Heq. subst time.
      revert Htime. apply (bool_decide_unpack _). vm_compute. reflexivity.
    + unfold times in Htime.
      repeat (apply elem_of_cons in Htime as [->|Htime];
              [by apply (bool_decide_unpack _)|]).
      inversion Htime.
    + by apply (bool_decide_unpack _).
  - intros date. apply cell_test_Available.
    rewrite cell_test_Reserved by done. cbn [bookings].
    intros (v & Hv & _). rewrite convertApiResponse_lookup in Hv.
    apply lastWrite_Some in Hv as (s & _ & Hs & _).
    by apply midnight_key_unwritten in Hs.
Qed.

Lemma hour_23_rendered_available_witness :
  cell Iso.format_YMD
    (fetchBookings
       (HttpResponse 200
          (payload [mkSlot (JStr "2024-06-01") (JNumber (Num 23)) (JStr "yes")]))
       (initialState "2024-06-01" "2024-06-07"))
    (LocalDay 19875) "23:00 - 00:00"
  = Available.
Proof.
  destruct (hour_23_rendered_available Iso.format_YMD
              [mkSlot (JStr "2024-06-01") (JNumber (Num 23)) (JStr "yes")]
              (mkSlot (JStr "2024-06-01") (JNumber (Num 23)) (JStr "yes"))
              (initialState "2024-06-01" "2024-06-07"))
    as (_ & _ & _ & _ & _ & _ & Hcell).
  - by left.
  - reflexivity.
  - apply Hcell.
Defined.

(** ** C4 and C5: the day sequence *)

Lemma ToLength_days (n : Z) :
  0 ≤ n ≤ 2 * maxDay + 1 → ToLength (Num n) = n.
Proof. unfold ToLength, maxDay. change (2 ^ 53 - 1) with 9007199254740991. lia. Qed.

Lemma ToLength_nonpositive (n : Z) : n ≤ 0 → ToLength (Num n) = 0.
Proof. unfold ToLength. change (2 ^ 53 - 1) with 9007199254740991. lia. Qed.

Lemma quot_days_bound (a : Z) :
  - (2 * maxDay * msPerDay) ≤ a ≤ 2 * maxDay * msPerDay →
  - (2 * maxDay) ≤ Z.quot a msPerDay ≤ 2 * maxDay.
Proof.
  intros Ha. unfold maxDay, msPerDay in *.
  Z.to_euclidean_division_equations. lia.
Qed.

Section Days.

Variable dayjs : string → Dayjs.
Variable localTime : Z → Dayjs.

(** The day sequence of two valid dates, in closed form: as many entries
    as the difference of the two readings has whole days, and one, each
    the start moved by its index. *)
Lemma dates_closed_form (st : State) (ts ks te ke : Z) :
  dayjs (startDate st) = Moment ts ks → dayjs (endDate st) = Moment te ke →
  - (maxDay * msPerDay) ≤ ts - ks ≤ maxDay * msPerDay →
  - (maxDay * msPerDay) ≤ te - ke ≤ maxDay * msPerDay →
  dates dayjs localTime st
  = Ok ((λ i : nat, localTime (ts + Z.of_nat i * msPerDay))
          <$> seq 0 (Z.to_nat (Z.quot ((te - ke) - (ts - ks)) msPerDay + 1))).
Proof.
  intros Hs He Hrs Hre. unfold dates, Array_from_length.
  rewrite Hs, He. cbn [dayjs_diff_day number_add].
  pose proof (quot_days_bound ((te - ke) - (ts - ks)) ltac:(lia)) as Hq.
  set (q := Z.quot ((te - ke) - (ts - ks)) msPerDay) in *.
  destruct (decide (q + 1 ≤ 0)) as [Hle|Hgt].
  - rewrite ToLength_nonpositive by done.
    replace (Z.to_nat (q + 1)) with 0%nat by lia. reflexivity.
  - rewrite ToLength_days by lia.
    destruct (2 ^ 32 - 1 <? q + 1) eqn:E.
    { change (2 ^ 32 - 1) with 4294967295 in E. unfold maxDay in *. lia. }
    reflexivity.
Qed.

(** A cleared picker gives an invalid date, and an empty sequence. *)
Lemma dates_invalid (st : State) :
  dayjs (startDate st) = InvalidDate ∨ dayjs (endDate st) = InvalidDate →
  dates dayjs localTime st = Ok [].
Proof.
  intros H. unfold dates, Array_from_length.
  destruct H as [-> | ->];
    [destruct (dayjs (endDate st)) | destruct (dayjs (startDate st))];
    reflexivity.
Qed.

(** The day sequence of two local midnights in order, when no midnight
    from the one to the other is skipped by a clock change. *)
Lemma dates_midnights (st : State) (s e : Z) :
  dayjs (startDate st) = LocalDay s → dayjs (endDate st) = LocalDay e →
  - maxDay ≤ s → e ≤ maxDay → s ≤ e →
  (∀ n, s ≤ n ≤ e → localTime (n * msPerDay) = LocalDay n) →
  dates dayjs localTime st
  = Ok ((λ i : nat, LocalDay (s + Z.of_nat i)) <$> seq 0 (Z.to_nat (e - s + 1))).
Proof.
  intros Hs He Hlo Hhi Hle Hzone.
  rewrite (dates_closed_form st _ _ _ _ Hs He)
    by (unfold maxDay, msPerDay in *; lia).
  replace (e * msPerDay - 0 - (s * msPerDay - 0)) with ((e - s) * msPerDay)
    by lia.
  rewrite Z.quot_mul by done. f_equal.
  apply list_fmap_ext. intros j i Hi%lookup_seq.
  replace (s * msPerDay + Z.of_nat i * msPerDay)
    with ((s + Z.of_nat i) * msPerDay) by lia.
  apply Hzone. lia.
Qed.

End Days.

(** C4, at the input on which the code fails it: in Africa/Cairo the
    midnight of 26 April 2024 is skipped by the clock change, so the start
    date 2024-04-26 is read at 01:00, the end date 2024-04-27 is 23 hours
    after it, [diff] cuts that to 0 days, and the day sequence of the range
    has one entry, the 26th, where end - start + 1 is 2. *)
Theorem dates_skipped_midnight_one_entry :
  Cairo.dayjs "2024-04-26" = Moment (19839 * msPerDay + 3600000) 0
  ∧ Cairo.dayjs "2024-04-27" = LocalDay 19840
  ∧ dates Cairo.dayjs Cairo.localTime (initialState "2024-04-26" "2024-04-27")
    = Ok [Moment (19839 * msPerDay + 3600000) 0]
  ∧ Iso.format_YMD (Moment (19839 * msPerDay + 3600000) 0) = "2024-04-26".
Proof. split_and!; vm_compute; reflexivity. Qed.

(** C5, at the input on which the code fails it: in Africa/Cairo, with the
    start date 2024-04-27 and the end date 2024-04-26, the end is read at
    01:00 (its midnight is skipped), 23 hours before the start; [diff] cuts
    that to 0 days, and the day sequence has one entry, the 27th, so the
    grid has one day column; nothing is thrown. *)
Theorem dates_inverted_range_one_entry :
  dates Cairo.dayjs Cairo.localTime (initialState "2024-04-27" "2024-04-26")
  = Ok [LocalDay 19840]
  ∧ Iso.format_YMD (LocalDay 19840) = "2024-04-27"
  ∧ grid Cairo.dayjs Cairo.localTime Iso.format_YMD
      (initialState "2024-04-27" "2024-04-26")
    = Ok ((λ time, (time, [Available])) <$> times).
Proof. split_and!; vm_compute; reflexivity. Qed.

(** ** C6 and C7: the fetch *)

(** C6: after a fetch that fails, by a network error or by a status that is
    not 2xx, the error is the fixed message and the lookup table is the one
    held before the call: the empty table on the first load. *)
Theorem fetch_failure_keeps_table (r : Response) (st : State) :
  request_fails r →
  error (fetchBookings r st) = Some "Gagal memuat data booking"
  ∧ bookings (fetchBookings r st) = bookings st
  ∧ loading (fetchBookings r st) = false
  ∧ (∀ today todayPlus6,
       bookings (fetchBookings r (initialState today todayPlus6)) = ∅).
Proof.
  intros Hfail.
  assert (∀ st', fetchBookings r st'
                 = mkState (startDate st') (endDate st') (bookings st')
                     false (Some errorMessage)) as Hrun.
  { intros st'. apply (fetchBookings_caught r AxiosError).
    destruct r as [|status data]; [reflexivity|].
    cbn in Hfail. by rewrite axios_get_not_2xx. }
  split_and!; try (rewrite Hrun; reflexivity).
  intros today todayPlus6. rewrite Hrun. reflexivity.
Qed.

Lemma fetch_failure_keeps_table_witness :
  bookings
    (fetchBookings (HttpResponse 500 DataNoSlots)
       (mkState "2024-06-01" "2024-06-07"
          {[ "2024-06-01_09:00 - 10:00" := JStr "yes" ]} false None))
  = {[ "2024-06-01_09:00 - 10:00" := JStr "yes" ]}.
Proof.
  apply (fetch_failure_keeps_table (HttpResponse 500 DataNoSlots)).
  cbn. lia.
Defined.

(** C7: after a fetch that succeeds, the lookup table is exactly the
    transformation of the response, whatever table was held before: a key
    of the prior table that the response does not write is gone. *)
Theorem fetch_success_replaces_table (status : Z) (data : ApiData)
    (table : Table) (st : State) :
  200 ≤ status ≤ 299 →
  convertApiResponse data = Ok table →
  bookings (fetchBookings (HttpResponse status data) st) = table
  ∧ (∀ st', bookings (fetchBookings (HttpResponse status data) st')
            = bookings (fetchBookings (HttpResponse status data) st))
  ∧ (∀ key, table !! key = None →
       bookings (fetchBookings (HttpResponse status data) st) !! key = None)
  ∧ error (fetchBookings (HttpResponse status data) st) = None.
Proof.
  intros Hstatus Hconv.
  assert (∀ st', fetchBookings (HttpResponse status data) st'
                 = mkState (startDate st') (endDate st') table false None)
    as Hrun by (intros; by apply fetchBookings_converted).
  split_and!.
  - rewrite Hrun. reflexivity.
  - intros st'. rewrite !Hrun. reflexivity.
  - intros key Hkey. rewrite Hrun. exact Hkey.
  - rewrite Hrun. reflexivity.
Qed.

Lemma fetch_success_replaces_table_witness :
  bookings
    (fetchBookings
       (HttpResponse 200
          (payload [mkSlot (JStr "2024-06-02") (JNumber (Num 9)) (JStr "yes")]))
       (mkState "2024-06-01" "2024-06-07"
          {[ "2024-06-01_09:00 - 10:00" := JStr "yes" ]} false None))
    !! "2024-06-01_09:00 - 10:00"
  = None.
Proof.
  destruct (fetch_success_replaces_table 200
              (payload [mkSlot (JStr "2024-06-02") (JNumber (Num 9)) (JStr "yes")])
              {[ "2024-06-02_09:00 - 10:00" := JStr "yes" ]}
              (mkState "2024-06-01" "2024-06-07"
                 {[ "2024-06-01_09:00 - 10:00" := JStr "yes" ]} false None))
    as (_ & _ & Hgone & _).
  - lia.
  - reflexivity.
  - apply Hgone. vm_compute. reflexivity.
Defined.

(** ** C8: records with a missing field *)

Lemma lastWrite_app (key : string) (front back : list Slot) :
  lastWrite key (front ++ back)
  = match lastWrite key back with
    | Some v => Some v
    | None => lastWrite key front
    end.
Proof.
  induction front as [|slot front IH]; cbn.
  - by destruct (lastWrite key back).
  - rewrite IH. by destruct (lastWrite key back).
Qed.

Lemma lastWrite_fresh (key : string) (slots : list Slot) :
  key ∉ slotKey <$> slots → lastWrite key slots = None.
Proof.
  intros Hfresh. destruct (lastWrite key slots) as [v|] eqn:E; [|done].
  apply lastWrite_Some in E as (slot & Hin & <- & _).
  exfalso. apply Hfresh. by apply list_elem_of_fmap_2.
Qed.

(** C8, as stated, fails: a record without its hour field is not skipped;
    it is written under a key made of the texts ["undefined"] and ["NaN"],
    where skipping it would leave the table empty. *)
Lemma missing_hour_not_skipped_counterexample :
  let slot := mkSlot (JStr "2024-06-01") JUndefined (JStr "yes") in
  ∃ table : Table,
    convertApiResponse (payload [slot]) = Ok table
    ∧ table !! "2024-06-01_undefined:00 - NaN:00" = Some (JStr "yes")
    ∧ table ≠ ∅.
Proof.
  eexists. split; [apply convertApiResponse_payload|]. split.
  - reflexivity.
  - intros H%(f_equal (lookup "2024-06-01_undefined:00 - NaN:00")).
    discriminate H.
Qed.

(** C8 (amended): a record that lacks its hour field or its date field is
    not skipped. The transformation returns, and the table has an entry
    under the key of the record, in which the missing hour reads
    ["undefined:00 - NaN:00"] and the missing date reads ["undefined"];
    the entry holds the booked field of the record unless a later record
    has the same key. The other records are processed as they are without
    it: under every other key the table is the one of the collection
    without the record. *)
Theorem missing_field_record_written (front back : list Slot) (slot : Slot) :
  slot_hour slot = JUndefined ∨ slot_date slot = JUndefined →
  ∃ table others : Table,
    convertApiResponse (payload (front ++ slot :: back)) = Ok table
    ∧ convertApiResponse (payload (front ++ back)) = Ok others
    ∧ is_Some (table !! slotKey slot)
    ∧ (slotKey slot ∉ slotKey <$> back →
         table !! slotKey slot = Some (slot_booked slot))
    ∧ (slotKey slot = js_String (slot_date slot) +:+ "_undefined:00 - NaN:00"
       ∨ slotKey slot = "undefined_" +:+ timeRange slot)
    ∧ (∀ key, key ≠ slotKey slot → table !! key = others !! key).
Proof.
  intros Hmissing. exists (foldl write ∅ (front ++ slot :: back)),
                   (foldl write ∅ (front ++ back)).
  split; [apply convertApiResponse_payload|].
  split; [apply convertApiResponse_payload|].
  split_and!.
  - rewrite convertApiResponse_lookup. apply lastWrite_is_Some.
    rewrite fmap_app, fmap_cons. apply elem_of_app. right. by left.
  - intros Hfresh. rewrite convertApiResponse_lookup, lastWrite_app.
    cbn [lastWrite]. rewrite (lastWrite_fresh _ back Hfresh).
    by rewrite decide_True.
  - destruct slot as [d h b]. cbn in Hmissing.
    destruct Hmissing as [-> | ->]; [left | right]; reflexivity.
  - intros key Hkey. rewrite !convertApiResponse_lookup, !lastWrite_app.
    cbn [lastWrite]. destruct (lastWrite key back); [reflexivity|].
    by rewrite decide_False.
Qed.

Lemma missing_field_record_written_witness :
  ∃ table : Table,
    convertApiResponse
      (payload [mkSlot (JStr "2024-06-01") (JNumber (Num 9)) (JStr "yes");
                mkSlot JUndefined (JNumber (Num 9)) (JStr "yes")])
    = Ok table
    ∧ table !! "undefined_09:00 - 10:00" = Some (JStr "yes").
Proof.
  destruct (missing_field_record_written
              [mkSlot (JStr "2024-06-01") (JNumber (Num 9)) (JStr "yes")] []
              (mkSlot JUndefined (JNumber (Num 9)) (JStr "yes")))
    as (table & _ & Hrun & _ & _ & Hentry & _).
  - right. reflexivity.
  - exists table. split; [exact Hrun|].
    apply Hentry. apply (bool_decide_unpack _). vm_compute. reflexivity.
Defined.

(** ** C9: running the transformation again *)

Lemma forEach_Ok_records (elems : list Elem) (converted table : Table) :
  forEach elems converted = Ok table → ∃ slots, elems = ERecord <$> slots.
Proof.
  revert converted. induction elems as [|[|slot|] rest IH]; intros converted.
  - intros _. by exists [].
  - discriminate.
  - cbn. intros (slots & ->)%IH. by exists (slot :: slots).
  - discriminate.
Qed.

Lemma foldl_write_replay (slots : list Slot) :
  foldl write (foldl write ∅ slots) slots = foldl write ∅ slots.
Proof.
  apply map_eq. intros key.
  rewrite lookup_foldl_write, convertApiResponse_lookup.
  by destruct (lastWrite key slots).
Qed.

(** C9: the transformation is a function of the response alone. Two runs on
    one response end the same way, and when they return, they return tables
    with the same keys and the same values; writing the records of the
    collection once more into the table they produced changes nothing; and
    a second fetch of the same response leaves the component in the state
    the first one left it in. *)
Theorem convertApiResponse_idempotent (apiData : ApiData) :
  (∀ first second : Exc Table,
     first = convertApiResponse apiData →
     second = convertApiResponse apiData →
     first = second
     ∧ ∀ t1 t2, first = Ok t1 → second = Ok t2 →
         dom t1 = dom t2 ∧ ∀ key, t1 !! key = t2 !! key)
  ∧ (∀ elems table, apiData = DataSlots elems →
       convertApiResponse apiData = Ok table →
       forEach elems table = Ok table)
  ∧ (∀ status st,
       fetchBookings (HttpResponse status apiData)
         (fetchBookings (HttpResponse status apiData) st)
       = fetchBookings (HttpResponse status apiData) st).
Proof.
  split_and!.
  - intros first second -> ->. split; [reflexivity|].
    intros t1 t2 -> [= ->]. done.
  - intros elems table -> Hrun. cbn in Hrun.
    destruct (forEach_Ok_records _ _ _ Hrun) as [slots ->].
    rewrite forEach_records in Hrun. injection Hrun as <-.
    rewrite forEach_records. f_equal. apply foldl_write_replay.
  - intros status st. unfold fetchBookings, fetchSettle.
    destruct (data ← axios_get (HttpResponse status apiData);
              convertApiResponse data); reflexivity.
Qed.

(** ** C10: the time slots *)

(** C10: the time-slot list is a constant of 22 labels, all different: the
    hours of the clock from 05:00 on, each ending at the next hour, without
    the two that start at 12:00 and 13:00, and with the hour of 23:00
    ending at 00:00 and followed by the hours 00:00 to 04:00. The rows of
    the grid are these labels in this order, whatever the state of the
    component. *)
Theorem times_fixed :
  length times = 22%nat
  ∧ NoDup times
  ∧ times = clock_label <$> [5; 6; 7; 8; 9; 10; 11;
                             14; 15; 16; 17; 18; 19; 20; 21; 22; 23;
                             0; 1; 2; 3; 4]
  ∧ (∀ h, 0 ≤ h ≤ 23 → (clock_label h ∈ times ↔ h ≠ 12 ∧ h ≠ 13))
  ∧ ("12:00 - 13:00" ∉ times) ∧ ("13:00 - 14:00" ∉ times)
  ∧ drop 16 times = ["23:00 - 00:00"; "00:00 - 01:00"; "01:00 - 02:00";
                     "02:00 - 03:00"; "03:00 - 04:00"; "04:00 - 05:00"]
  ∧ (∀ dayjs localTime format_YMD st rows,
       grid dayjs localTime format_YMD st = Ok rows → rows.*1 = times).
Proof.
  split_and!.
  - reflexivity.
  - apply (bool_decide_unpack _). vm_compute. reflexivity.
  - reflexivity.
  - intros h Hh.
    assert (Z.to_nat h < 24)%nat as Hn by lia.
    rewrite <- (Z2Nat.id h) by lia.
    revert Hn. generalize (Z.to_nat h). clear h Hh. intros n Hn.
    do 24 (destruct n as [|n];
           [split; [intros Hin; revert Hin | intros [H12 H13]; revert H12 H13];
            apply (bool_decide_unpack _); vm_compute; reflexivity|]).
    lia.
  - apply (bool_decide_unpack _). vm_compute. reflexivity.
  - apply (bool_decide_unpack _). vm_compute. reflexivity.
  - reflexivity.
  - intros dayjs localTime format_YMD st rows. unfold grid.
    destruct (dates dayjs localTime st) as [days|e]; [|discriminate].
    intros [= <-]. reflexivity.
Qed.

(** * Further properties of the component *)

(** ** The transformation: errors, keys, composition *)

Lemma forEach_Throw_iff (elems : list Elem) (converted : Table) (e : JsError) :
  forEach elems converted = Throw e
  ↔ e = TypeError ∧ (ENull ∈ elems ∨ EUnprintable ∈ elems).
Proof.
  revert converted. induction elems as [|[|slot|] rest IH]; intros converted.
  - split; [discriminate|]. intros [_ [H|H]]; inversion H.
  - cbn. split.
    + intros [= <-]. split; [reflexivity | left; by left].
    + by intros [-> _].
  - cbn. change (forEach rest (write converted slot) = Throw e
                 ↔ e = TypeError
                   ∧ (ENull ∈ ERecord slot :: rest
                      ∨ EUnprintable ∈ ERecord slot :: rest)).
    rewrite IH. split; intros [He Hin]; (split; [done|]).
    + destruct Hin; [left | right]; by right.
    + destruct Hin as [Hin|Hin]; apply elem_of_cons in Hin as [[=]|Hin];
        [by left | by right].
  - cbn. split.
    + intros [= <-]. split; [reflexivity | right; by left].
    + by intros [-> _].
Qed.

(** X1: the transformation throws exactly when the body is null or
    undefined, or when the collection holds a null element or a record
    whose hour or date has no primitive value; what it throws then is a
    TypeError, and in every other case (no collection, or a collection of
    records) it returns a table. *)
Theorem convertApiResponse_throws_iff (apiData : ApiData) :
  (∀ e, convertApiResponse apiData = Throw e ↔
        e = TypeError
        ∧ (apiData = DataNullish
           ∨ ∃ elems, apiData = DataSlots elems
                      ∧ (ENull ∈ elems ∨ EUnprintable ∈ elems)))
  ∧ ((∃ table, convertApiResponse apiData = Ok table) ↔
       apiData = DataNoSlots
       ∨ ∃ slots, apiData = payload slots).
Proof.
  split.
  - intros e. destruct apiData as [| |elems]; cbn.
    + split.
      * intros [= <-]. split; [reflexivity | by left].
      * by intros [-> _].
    + split; [discriminate|]. intros [_ [[=]|(elems & [=] & _)]].
    + rewrite forEach_Throw_iff. split.
      * intros [-> Hin]. split; [reflexivity|]. right. by exists elems.
      * intros [-> [[=]|(elems' & [= <-] & Hin)]]. done.
  - destruct apiData as [| |elems]; cbn.
    + split; [intros [t [=]] | intros [[=]|(slots & [=])]].
    + split; [by left | by exists ∅].
    + split.
      * intros [t Ht]. right.
        destruct (forEach_Ok_records _ _ _ Ht) as [slots ->]. by exists slots.
      * intros [[=]|(slots & [= ->])]. rewrite forEach_records. eauto.
Qed.

(** X2: the keys of the table returned are exactly the keys of the records
    of the collection, so the table never has more entries than the
    collection has records. *)
Theorem convertApiResponse_keys (slots : list Slot) :
  ∃ table : Table,
    convertApiResponse (payload slots) = Ok table
    ∧ dom table = list_to_set (slotKey <$> slots)
    ∧ (size table ≤ length slots)%nat.
Proof.
  exists (foldl write ∅ slots). split; [apply convertApiResponse_payload|].
  assert (dom (foldl write ∅ slots) = list_to_set (C:=gset string) (slotKey <$> slots))
    as Hdom.
  { apply set_eq. intros key.
    rewrite elem_of_dom, convertApiResponse_lookup, elem_of_list_to_set.
    split.
    - intros [v (slot & Hin & <- & _)%lastWrite_Some].
      by apply list_elem_of_fmap_2.
    - apply lastWrite_is_Some. }
  split; [exact Hdom|].
  rewrite <- size_dom, Hdom.
  clear Hdom. induction slots as [|slot rest IH]; cbn.
  - by rewrite size_empty.
  - rewrite size_union_alt, size_singleton.
    assert (size (list_to_set (C:=gset string) (slotKey <$> rest)
                  ∖ {[slotKey slot]})
            ≤ size (list_to_set (C:=gset string) (slotKey <$> rest)))%nat
      as Hle.
    { apply subseteq_size. intros key [Hkey _]%elem_of_difference. exact Hkey. }
    lia.
Qed.

(** X3: when several records share a key, the later one wins: the entry
    under the key of a record holds the booked field of that record or of a
    record after it in the collection with the same key, never of an
    earlier one, and it holds the record's own when no record after it has
    its key. *)
Theorem convertApiResponse_last_record_wins (front back : list Slot)
    (slot : Slot) :
  ∃ table : Table,
    convertApiResponse (payload (front ++ slot :: back)) = Ok table
    ∧ (∃ winner, winner ∈ slot :: back
         ∧ slotKey winner = slotKey slot
         ∧ table !! slotKey slot = Some (slot_booked winner))
    ∧ (slotKey slot ∉ slotKey <$> back →
         table !! slotKey slot = Some (slot_booked slot)).
Proof.
  exists (foldl write ∅ (front ++ slot :: back)).
  split; [apply convertApiResponse_payload|].
  rewrite convertApiResponse_lookup, lastWrite_app. split.
  - destruct (lastWrite_is_Some (slotKey slot) (slot :: back)) as [v Hv].
    { rewrite fmap_cons. by left. }
    rewrite Hv. apply lastWrite_Some in Hv as (winner & Hin & Hkey & <-).
    by exists winner.
  - intros Hfresh. cbn [lastWrite]. rewrite (lastWrite_fresh _ back Hfresh).
    by rewrite decide_True.
Qed.

(** X4: the table of a collection read in two parts is the table of the
    second part laid over the table of the first: where both have a key,
    the second part's entry stands. *)
Theorem convertApiResponse_app (first second : list Slot) :
  ∃ t1 t2 : Table,
    convertApiResponse (payload first) = Ok t1
    ∧ convertApiResponse (payload second) = Ok t2
    ∧ convertApiResponse (payload (first ++ second)) = Ok (t2 ∪ t1).
Proof.
  exists (foldl write ∅ first), (foldl write ∅ second).
  split; [apply convertApiResponse_payload|].
  split; [apply convertApiResponse_payload|].
  rewrite convertApiResponse_payload. f_equal. apply map_eq. intros key.
  rewrite lookup_union, !convertApiResponse_lookup, lastWrite_app.
  destruct (lastWrite key second), (lastWrite key first); reflexivity.
Qed.

(** X5: when the keys of the records are pairwise distinct, the order of
    the records in the collection does not matter: any reordering gives the
    same table. *)
Theorem convertApiResponse_Permutation (slots slots' : list Slot) :
  NoDup (slotKey <$> slots) → slots ≡ₚ slots' →
  convertApiResponse (payload slots) = convertApiResponse (payload slots').
Proof.
  intros Hnd Hperm. rewrite !convertApiResponse_payload. f_equal.
  assert (NoDup (slotKey <$> slots')) as Hnd' by (by rewrite <- Hperm).
  apply map_eq. intros key. rewrite !convertApiResponse_lookup.
  destruct (decide (key ∈ slotKey <$> slots)) as [Hin|Hout].
  - apply list_elem_of_fmap in Hin as (slot & -> & Hin).
    rewrite (lastWrite_NoDup slots slot Hnd Hin).
    rewrite (lastWrite_NoDup slots' slot Hnd'); [reflexivity|].
    by rewrite <- Hperm.
  - rewrite (lastWrite_fresh key slots Hout).
    rewrite lastWrite_fresh; [reflexivity|]. by rewrite <- Hperm.
Qed.

Lemma convertApiResponse_Permutation_witness :
  convertApiResponse
    (payload [mkSlot (JStr "2024-06-01") (JNumber (Num 9)) (JStr "yes");
              mkSlot (JStr "2024-06-02") (JNumber (Num 9)) (JStr "no")])
  = convertApiResponse
      (payload [mkSlot (JStr "2024-06-02") (JNumber (Num 9)) (JStr "no");
                mkSlot (JStr "2024-06-01") (JNumber (Num 9)) (JStr "yes")]).
Proof.
  apply convertApiResponse_Permutation.
  - apply (bool_decide_unpack _). vm_compute. reflexivity.
  - apply perm_swap.
Defined.

(** ** Keys of records with an integer hour *)

Lemma pretty_N_go_head (x : N) (s : string) :
  (0 < x)%N → ∃ c rest, pretty_N_go x s = String c rest ∧ c ≠ "0"%char.
Proof.
  revert s. induction (N.lt_wf_0 x) as [x _ IH]; intros s Hx.
  rewrite pretty_N_go_step by done.
  destruct (decide (x `div` 10 = 0)%N) as [E|E].
  - rewrite E, pretty_N_go_0. eexists _, _. split; [reflexivity|].
    apply N.div_small_iff in E; [|done].
    rewrite N.mod_small by done.
    intros Hzero. apply (pretty_N_char_inj x 0) in Hzero; lia.
  - apply IH.
    + apply N.div_lt; lia.
    + by apply N.neq_0_lt_0.
Qed.

(** A printed integer has no leading zero, apart from ["0"] itself. *)
Lemma pretty_Z_head (n : Z) :
  pretty n = "0" ∨ ∃ c rest, pretty n = String c rest ∧ c ≠ "0"%char.
Proof.
  destruct n as [|p|p]; unfold pretty, pretty_Z.
  - by left.
  - right. unfold pretty, pretty_positive, pretty, pretty_N.
    rewrite decide_False by done. by apply pretty_N_go_head.
  - right. by eexists _, _.
Qed.

Lemma padStart2_pretty_inj (n1 n2 : Z) :
  padStart2 (pretty n1) = padStart2 (pretty n2) → n1 = n2.
Proof.
  intros H. apply (inj (pretty (A:=Z))).
  destruct (pretty_Z_head n1) as [E1|(c1 & r1 & E1 & Hc1)],
           (pretty_Z_head n2) as [E2|(c2 & r2 & E2 & Hc2)];
    rewrite E1, E2 in *; [reflexivity|..].
  - destruct r2 as [|c r2]; cbn in H; [|congruence].
    injection H as ->. done.
  - destruct r1 as [|c r1]; cbn in H; [|congruence].
    injection H as <-. done.
  - destruct r1 as [|c r1], r2 as [|c' r2]; cbn in H; congruence.
Qed.

Lemma rchars_no_separator (sep : ascii) (h : Z) :
  plain_char sep = false → sep ∉ rchars (padStart2 (pretty h)).
Proof.
  intros Hsep. apply plain_no_char; [done|].
  apply padStart2_plain, pretty_Z_plain.
Qed.

(** Two labels made of printed integers agree only when their starts and
    their ends do. *)
Lemma label_inj (a b a' b' : Z) :
  padStart2 (pretty a) +:+ ":00 - " +:+ padStart2 (pretty b) +:+ ":00"
  = padStart2 (pretty a') +:+ ":00 - " +:+ padStart2 (pretty b') +:+ ":00" →
  a = a' ∧ b = b'.
Proof.
  intros H%(f_equal rchars). rewrite !rchars_app, <- !app_assoc in H.
  apply app_inv_head in H.
  change (rchars ":00 - ") with ([" "] ++ ["-"; " "; "0"; "0"; ":"])%char in H.
  rewrite <- !app_assoc in H. cbn [app] in H.
  apply cut_at_separator in H as [Hb H];
    [|by apply rchars_no_separator..].
  apply rchars_inj, padStart2_pretty_inj in Hb.
  injection H as H. apply rchars_inj, padStart2_pretty_inj in H. done.
Qed.

Lemma times_clock_labels :
  times = clock_label <$> [5; 6; 7; 8; 9; 10; 11;
                           14; 15; 16; 17; 18; 19; 20; 21; 22; 23;
                           0; 1; 2; 3; 4].
Proof. reflexivity. Qed.

Lemma clock_label_printed (k : Z) :
  0 ≤ k ≤ 23 →
  clock_label k
  = padStart2 (pretty k) +:+ ":00 - "
      +:+ padStart2 (pretty ((k + 1) mod 24)) +:+ ":00".
Proof.
  intros Hk. unfold clock_label. rewrite !padStart2_pretty; [done| |lia].
  pose proof (Z.mod_pos_bound (k + 1) 24). lia.
Qed.

Lemma timeRange_in_times (slot : Slot) (h : Z) :
  slot_hour slot = JNumber (Num h) →
  timeRange slot ∈ times ↔ 0 ≤ h ≤ 11 ∨ 14 ≤ h ≤ 22.
Proof.
  intros Hhour. destruct slot as [date hour booked]. cbn in Hhour. subst hour.
  split.
  - rewrite times_clock_labels. intros (k & Heq & Hk)%list_elem_of_fmap.
    assert (0 ≤ k ≤ 23 ∧ k ≠ 12 ∧ k ≠ 13) as (Hrange & H12 & H13).
    { repeat (apply elem_of_cons in Hk as [->|Hk]; [lia|]). inversion Hk. }
    rewrite clock_label_printed in Heq by done.
    unfold timeRange in Heq. cbn in Heq.
    apply label_inj in Heq as [-> Hend].
    assert (k ≠ 23) by (intros ->; discriminate Hend). lia.
  - intros Hh.
    assert (Z.to_nat h < 23)%nat as Hn by lia.
    assert (Z.to_nat h ≠ 12 ∧ Z.to_nat h ≠ 13)%nat as [H12 H13] by lia.
    rewrite <- (Z2Nat.id h) by lia.
    revert Hn H12 H13. generalize (Z.to_nat h). clear h Hh. intros n Hn H12 H13.
    do 23 (destruct n as [|n];
           [first [done | apply (bool_decide_unpack _); vm_compute; reflexivity]|]).
    lia.
Qed.

(** X6: records with integer hours have the same key only when they have
    the same hour and the same date text: the key tells the slot. *)
Theorem slotKey_inj (slot1 slot2 : Slot) (h1 h2 : Z) :
  slot_hour slot1 = JNumber (Num h1) →
  slot_hour slot2 = JNumber (Num h2) →
  slotKey slot1 = slotKey slot2 →
  js_String (slot_date slot1) = js_String (slot_date slot2) ∧ h1 = h2.
Proof.
  intros Hh1 Hh2 H%(f_equal rchars). rewrite !rchars_slotKey in H.
  rewrite Hh1, Hh2 in H. cbn [js_add_one js_String number_add number_to_string] in H.
  apply app_inv_head in H.
  change ([" "; "-"; " "; "0"; "0"; ":"]%char ++ ?x)
    with (" "%char :: ["-"; " "; "0"; "0"; ":"]%char ++ x) in H.
  apply cut_at_separator in H as [_ H]; [|by apply rchars_no_separator..].
  cbn [app] in H. injection H as H.
  apply cut_at_separator in H as [Hstart Hdate];
    [|by apply rchars_no_separator..].
  split.
  - by apply rchars_inj.
  - by apply rchars_inj, padStart2_pretty_inj in Hstart.
Qed.

Lemma slotKey_inj_witness :
  js_String (JStr "2024-06-01") = js_String (JStr "2024-06-01") ∧ 9 = 9.
Proof.
  apply (slotKey_inj (mkSlot (JStr "2024-06-01") (JNumber (Num 9)) JNull)
           (mkSlot (JStr "2024-06-01") (JNumber (Num 9)) (JStr "yes")) 9 9);
    reflexivity.
Defined.

(** ** Records and cells *)

Lemma rchars_slotKey_timeRange (slot : Slot) :
  rchars (slotKey slot)
  = rchars (timeRange slot) ++ "_"%char :: rchars (js_String (slot_date slot)).
Proof.
  unfold slotKey. rewrite !rchars_app, <- !app_assoc. reflexivity.
Qed.

Lemma timeRange_no_underscore (slot : Slot) (h : Z) :
  slot_hour slot = JNumber (Num h) → "_"%char ∉ rchars (timeRange slot).
Proof.
  intros Hh. unfold timeRange. rewrite Hh.
  cbn [js_add_one js_String number_add number_to_string].
  rewrite !rchars_app. rewrite !not_elem_of_app. split_and!;
    first [by apply rchars_no_separator | by apply (bool_decide_unpack _)].
Qed.

Lemma times_no_underscore (time : string) :
  time ∈ times → "_"%char ∉ rchars time.
Proof.
  unfold times. intros H.
  repeat (apply elem_of_cons in H as [->|H];
          [by apply (bool_decide_unpack _)|]).
  inversion H.
Qed.

Lemma getBookingKey_slotKey (format_YMD : Dayjs → string) (slot : Slot)
    (h : Z) (date : Dayjs) (time : string) :
  slot_hour slot = JNumber (Num h) → time ∈ times →
  getBookingKey format_YMD date time = slotKey slot
  ↔ format_YMD date = js_String (slot_date slot) ∧ time = timeRange slot.
Proof.
  intros Hh Htime. split.
  - intros H%(f_equal rchars).
    rewrite rchars_getBookingKey, rchars_slotKey_timeRange in H.
    apply cut_at_separator in H as [Ht Hd].
    + split; by apply rchars_inj.
    + by apply times_no_underscore.
    + by apply (timeRange_no_underscore slot h).
  - intros [Hd ->]. unfold getBookingKey, slotKey. by rewrite Hd.
Qed.

(** X7: a record with an integer hour is the record of a cell exactly when
    the date of the cell formats to the date text of the record and the row
    of the cell is the label of the record; there is such a row exactly for
    the hours 0 to 11 and 14 to 22, so a record of hour 12, 13 or 23, or of
    an hour outside the day, has no cell in the grid. *)
Theorem record_cell (format_YMD : Dayjs → string) (slot : Slot) (h : Z) :
  slot_hour slot = JNumber (Num h) →
  (∀ date time, time ∈ times →
     getBookingKey format_YMD date time = slotKey slot
     ↔ format_YMD date = js_String (slot_date slot) ∧ time = timeRange slot)
  ∧ (timeRange slot ∈ times ↔ 0 ≤ h ≤ 11 ∨ 14 ≤ h ≤ 22)
  ∧ (¬ (0 ≤ h ≤ 11 ∨ 14 ≤ h ≤ 22) →
     ∀ date time, time ∈ times →
       getBookingKey format_YMD date time ≠ slotKey slot).
Proof.
  intros Hh. split_and!.
  - intros date time Htime. by apply (getBookingKey_slotKey _ _ h).
  - by apply timeRange_in_times.
  - intros Hout date time Htime Heq.
    apply (getBookingKey_slotKey _ _ h) in Heq as [_ ->]; [|done..].
    by apply (timeRange_in_times slot h) in Htime.
Qed.

Lemma record_cell_witness :
  getBookingKey Iso.format_YMD (LocalDay 19875) "11:00 - 12:00"
  ≠ slotKey (mkSlot (JStr "2024-06-01") (JNumber (Num 12)) (JStr "yes")).
Proof.
  destruct (record_cell Iso.format_YMD
              (mkSlot (JStr "2024-06-01") (JNumber (Num 12)) (JStr "yes")) 12)
    as (_ & _ & Hnone).
  - reflexivity.
  - apply Hnone; [lia|]. apply (bool_decide_unpack _). vm_compute. reflexivity.
Defined.

(** X8: after the fetch of a collection of records with distinct keys, a
    record of an hour that has a row (0 to 11, 14 to 22) decides its cell:
    the cell of its row on a day that formats to its date is reserved when
    its booked field is truthy, and available when the field is falsy,
    although the record is in the collection. *)
Theorem booked_record_rendered (format_YMD : Dayjs → string)
    (slots : list Slot) (slot : Slot) (h : Z) (date : Dayjs) (st : State) :
  NoDup (slotKey <$> slots) → slot ∈ slots →
  slot_hour slot = JNumber (Num h) →
  0 ≤ h ≤ 11 ∨ 14 ≤ h ≤ 22 →
  format_YMD date = js_String (slot_date slot) →
  cell format_YMD (fetchBookings (HttpResponse 200 (payload slots)) st)
    date (timeRange slot)
  = if js_truthy (slot_booked slot) then Reserved else Available.
Proof.
  intros Hnd Hin Hh Hrange Hdate.
  assert (timeRange slot ∈ times) as Htime by (by apply (timeRange_in_times slot h)).
  rewrite (fetchBookings_converted 200 _ (foldl write ∅ slots))
    by (lia || apply convertApiResponse_payload).
  assert (bookings (mkState (startDate st) (endDate st) (foldl write ∅ slots)
                      false None)
            !! (format_YMD date +:+ "_" +:+ timeRange slot)
          = Some (slot_booked slot)) as Hentry.
  { cbn [bookings]. rewrite Hdate. change (_ +:+ "_" +:+ _) with (slotKey slot).
    rewrite convertApiResponse_lookup. by apply lastWrite_NoDup. }
  destruct (js_truthy (slot_booked slot)) eqn:Htruthy.
  - apply cell_test_Reserved; [done|]. eauto.
  - apply cell_test_Available. rewrite cell_test_Reserved by done.
    intros (v & Hv & Hvt). rewrite Hentry in Hv. congruence.
Qed.

Lemma booked_record_rendered_witness :
  cell Iso.format_YMD
    (fetchBookings
       (HttpResponse 200
          (payload [mkSlot (JStr "2024-06-01") (JNumber (Num 9)) (JBool false)]))
       (initialState "2024-06-01" "2024-06-07"))
    (LocalDay 19875) "09:00 - 10:00"
  = Available.
Proof.
  apply (booked_record_rendered Iso.format_YMD
           [mkSlot (JStr "2024-06-01") (JNumber (Num 9)) (JBool false)]
           (mkSlot (JStr "2024-06-01") (JNumber (Num 9)) (JBool false)) 9
           (LocalDay 19875)).
  - apply (bool_decide_unpack _). vm_compute. reflexivity.
  - by left.
  - reflexivity.
  - lia.
  - reflexivity.
Defined.

(** ** The fetch: how it ends *)

Lemma convertApiResponse_Throw_TypeError (data : ApiData) (e : JsError) :
  convertApiResponse data = Throw e → e = TypeError.
Proof.
  destruct data as [| |elems]; cbn.
  - by intros [= <-].
  - discriminate.
  - by intros [-> _]%forEach_Throw_iff.
Qed.

Lemma fetchSettle_cases (r : Response) (st : State) :
  (∃ status data table,
     r = HttpResponse status data ∧ 200 ≤ status ≤ 299
     ∧ convertApiResponse data = Ok table
     ∧ fetchSettle r st
       = mkState (startDate st) (endDate st) table false (error st))
  ∨ ((request_fails r
      ∨ ∃ status data, r = HttpResponse status data
                       ∧ convertApiResponse data = Throw TypeError)
     ∧ fetchSettle r st
       = mkState (startDate st) (endDate st) (bookings st) false
           (Some errorMessage)).
Proof.
  unfold fetchSettle. destruct r as [|status data].
  - right. split; [by left | reflexivity].
  - destruct (decide (200 ≤ status ≤ 299)) as [Hs|Hs].
    + rewrite axios_get_2xx by done. unfold mbind, Exc_bind.
      destruct (convertApiResponse data) as [table|e] eqn:Hc.
      * left. by exists status, data, table.
      * right. split; [|reflexivity]. right. exists status, data.
        split; [reflexivity|].
        rewrite Hc. f_equal. by apply (convertApiResponse_Throw_TypeError data).
    + rewrite axios_get_not_2xx by done. right. split; [by left | reflexivity].
Qed.


(** X10: a response with a 2xx status whose collection holds a null element
    is handled as a failed fetch: the banner shows the message and the
    table is the one held before; the records that precede the null
    element in the collection are not written to it. *)
Theorem fetch_null_element_caught (status : Z) (before : list Slot)
    (after : list Elem) (st : State) :
  200 ≤ status ≤ 299 →
  let r := HttpResponse status
             (DataSlots ((ERecord <$> before) ++ ENull :: after)) in
  bookings (fetchBookings r st) = bookings st
  ∧ errorBanner (fetchBookings r st) = Some "Gagal memuat data booking"
  ∧ refreshDisabled (fetchBookings r st) = false.
Proof.
  intros Hs r.
  assert (fetchBookings r st
          = mkState (startDate st) (endDate st) (bookings st) false
              (Some errorMessage)) as ->.
  { apply (fetchBookings_caught r TypeError). unfold r.
    rewrite axios_get_2xx by done. unfold mbind, Exc_bind. cbn.
    apply forEach_Throw_iff. split; [reflexivity|]. left.
    apply elem_of_app. right. by left. }
  done.
Qed.

Lemma fetch_null_element_caught_witness :
  bookings
    (fetchBookings
       (HttpResponse 200
          (DataSlots ((ERecord <$> [mkSlot (JStr "2024-06-01") (JNumber (Num 9))
                                      (JStr "yes")])
                      ++ ENull :: [])))
       (initialState "2024-06-01" "2024-06-07"))
  = ∅.
Proof.
  apply (fetch_null_element_caught 200
           [mkSlot (JStr "2024-06-01") (JNumber (Num 9)) (JStr "yes")] []
           (initialState "2024-06-01" "2024-06-07")).
  lia.
Defined.

(** X11: a fetch that succeeds after one that failed removes the banner and
    shows the new table; a fetch that fails after one that succeeded shows
    the banner over the table of the one that succeeded. *)
Theorem fetch_recovery (failing : Response) (status : Z) (data : ApiData)
    (table : Table) (st : State) :
  request_fails failing →
  200 ≤ status ≤ 299 → convertApiResponse data = Ok table →
  let ok := HttpResponse status data in
  (errorBanner (fetchBookings ok (fetchBookings failing st)) = None
   ∧ bookings (fetchBookings ok (fetchBookings failing st)) = table)
  ∧ (errorBanner (fetchBookings failing (fetchBookings ok st))
     = Some "Gagal memuat data booking"
     ∧ bookings (fetchBookings failing (fetchBookings ok st)) = table).
Proof.
  intros Hfail Hs Hc ok.
  assert (∀ st', fetchBookings failing st'
                 = mkState (startDate st') (endDate st') (bookings st')
                     false (Some errorMessage)) as Hf.
  { intros st'. apply (fetchBookings_caught failing AxiosError).
    destruct failing as [|status' data']; [reflexivity|].
    cbn in Hfail. by rewrite axios_get_not_2xx. }
  assert (∀ st', fetchBookings ok st'
                 = mkState (startDate st') (endDate st') table false None)
    as Hok by (intros; by apply fetchBookings_converted).
  rewrite !Hf, !Hok. done.
Qed.

Lemma fetch_recovery_witness :
  errorBanner
    (fetchBookings (HttpResponse 200 DataNoSlots)
       (fetchBookings NetworkError (initialState "2024-06-01" "2024-06-07")))
  = None.
Proof.
  apply (fetch_recovery NetworkError 200 DataNoSlots ∅
           (initialState "2024-06-01" "2024-06-07")).
  - exact I.
  - lia.
  - reflexivity.
Defined.

(** X12: requests in flight are not cancelled. When a second request is
    sent before the first has settled, the first one to settle enables the
    refresh button although the other is still in flight; and when the
    first fails and the second succeeds, the table of the second is shown
    together with the banner of the first, which nothing clears. *)
Theorem overlapping_requests (failing : Response) (status : Z)
    (data : ApiData) (table : Table) (st : State) :
  request_fails failing →
  200 ≤ status ≤ 299 → convertApiResponse data = Ok table →
  refreshDisabled (run st [RequestSent; RequestSent]) = true
  ∧ refreshDisabled
      (run st [RequestSent; RequestSent; RequestSettled failing]) = false
  ∧ bookings
      (run st [RequestSent; RequestSent; RequestSettled failing;
               RequestSettled (HttpResponse status data)]) = table
  ∧ errorBanner
      (run st [RequestSent; RequestSent; RequestSettled failing;
               RequestSettled (HttpResponse status data)])
    = Some "Gagal memuat data booking".
Proof.
  intros Hfail Hs Hc. cbn [run foldl handle].
  destruct (fetchSettle_cases failing (fetchPending (fetchPending st)))
    as [(status' & data' & table' & -> & Hs' & _)|[_ ->]].
  { cbn in Hfail. lia. }
  destruct (fetchSettle_cases (HttpResponse status data)
              (mkState (startDate (fetchPending (fetchPending st)))
                 (endDate (fetchPending (fetchPending st)))
                 (bookings (fetchPending (fetchPending st))) false
                 (Some errorMessage)))
    as [(status' & data' & table' & [= <- <-] & _ & Hc' & ->)
       |[[Hfail'|(status' & data' & [= <- <-] & Hc')] _]].
  - rewrite Hc in Hc'. injection Hc' as <-. done.
  - cbn in Hfail'. lia.
  - congruence.
Qed.

Lemma overlapping_requests_witness :
  errorBanner
    (run (initialState "2024-06-01" "2024-06-07")
       [RequestSent; RequestSent; RequestSettled NetworkError;
        RequestSettled (HttpResponse 200 DataNoSlots)])
  = Some "Gagal memuat data booking".
Proof.
  apply (overlapping_requests NetworkError 200 DataNoSlots ∅
           (initialState "2024-06-01" "2024-06-07")).
  - exact I.
  - lia.
  - reflexivity.
Defined.

(** ** What holds in every state the component reaches *)

Lemma convertApiResponse_Ok_keys (data : ApiData) (table : Table) (key : string) :
  convertApiResponse data = Ok table → is_Some (table !! key) →
  ∃ slot, key = slotKey slot.
Proof.
  destruct data as [| |elems]; cbn.
  - discriminate.
  - intros [= <-] [v Hv]. by rewrite lookup_empty in Hv.
  - intros Hrun [v Hv].
    destruct (forEach_Ok_records _ _ _ Hrun) as [slots ->].
    rewrite forEach_records in Hrun. injection Hrun as <-.
    rewrite convertApiResponse_lookup in Hv.
    apply lastWrite_Some in Hv as (slot & _ & <- & _). by exists slot.
Qed.

Lemma well_formed_handle (st : State) (ev : Event) :
  well_formed st → well_formed (handle st ev).
Proof.
  intros [Herr Hkeys]. destruct ev as [dateStr|dateStr| |r]; cbn [handle].
  - done.
  - done.
  - split; [by left | exact Hkeys].
  - destruct (fetchSettle_cases r st)
      as [(status & data & table & -> & _ & Hc & ->)|[_ ->]].
    + split; [exact Herr|]. cbn [bookings]. intros key.
      by apply (convertApiResponse_Ok_keys data).
    + split; [by right | exact Hkeys].
Qed.

Lemma well_formed_run (st : State) (evs : list Event) :
  well_formed st → well_formed (run st evs).
Proof.
  revert st. induction evs as [|ev evs IH]; intros st Hst; [done|].
  cbn [run foldl]. apply IH. by apply well_formed_handle.
Qed.

(** X13: whatever dates are picked and whatever requests are sent and
    settle, in whatever order, after the mount: the banner is absent or
    shows the fixed message; every key of the lookup table is the key of a
    record of some response, so none is ["__proto__"]; and the row
    ["23:00 - 00:00"] is available on every day. *)
Theorem run_invariant (format_YMD : Dayjs → string) (today todayPlus6 : string)
    (evs : list Event) :
  let st := run (initialState today todayPlus6) evs in
  (errorBanner st = None ∨ errorBanner st = Some "Gagal memuat data booking")
  ∧ (∀ key, is_Some (bookings st !! key) →
       (∃ slot, key = slotKey slot) ∧ key ≠ "__proto__")
  ∧ (∀ date, cell format_YMD st date "23:00 - 00:00" = Available).
Proof.
  intros st.
  assert (well_formed st) as [Herr Hkeys].
  { apply well_formed_run. split; [by left|].
    intros key [v Hv]. cbn in Hv. by rewrite lookup_empty in Hv. }
  split_and!.
  - unfold errorBanner. destruct Herr as [-> | ->]; [by left | by right].
  - intros key Hkey. destruct (Hkeys key Hkey) as [slot ->].
    split; [by exists slot | apply slotKey_not_proto].
  - intros date. apply cell_test_Available. rewrite cell_test_Reserved.
    + intros (v & Hv & _).
      destruct (Hkeys (format_YMD date +:+ "_" +:+ "23:00 - 00:00"))
        as [slot Hslot]; [by exists v|].
      symmetry in Hslot. by apply midnight_key_unwritten in Hslot.
    + apply (bool_decide_unpack _). vm_compute. reflexivity.
Qed.

(** ** The grid without data *)

(** X14: while the lookup table is empty, as it is from the mount until a
    fetch succeeds, every cell of the grid is available: each row of the
    grid is its time slot with one available cell per day. *)
Theorem grid_without_data (dayjs : string → Dayjs) (localTime : Z → Dayjs)
    (format_YMD : Dayjs → string) (st : State) (days : list Dayjs) :
  bookings st = ∅ → dates dayjs localTime st = Ok days →
  grid dayjs localTime format_YMD st
  = Ok ((λ time, (time, (λ _, Available) <$> days)) <$> times).
Proof.
  intros Hempty Hdays. unfold grid. rewrite Hdays.
  unfold mbind, Exc_bind, mret, Exc_ret. f_equal.
  apply list_eq_Forall2, Forall2_fmap_r, Forall2_same_length_lookup_2.
  { by rewrite length_map. }
  intros i row time Hrow Htime.
  assert (time ∈ times) as Hin by (by eapply list_elem_of_lookup_2).
  change (map ?f times) with (f <$> times) in Hrow.
  rewrite list_lookup_fmap, Htime in Hrow. injection Hrow as <-.
  unfold compose. f_equal. change (map ?f days) with (f <$> days).
  apply list_fmap_ext. intros _ date _.
  apply cell_test_Available. rewrite cell_test_Reserved by done.
  intros (v & Hv & _). by rewrite Hempty, lookup_empty in Hv.
Qed.

Lemma grid_without_data_witness :
  grid Iso.dayjs Iso.localTime Iso.format_YMD (initialState "2024-06-01" "2024-06-02")
  = Ok ((λ time, (time, (λ _, Available) <$> [LocalDay 19875; LocalDay 19876]))
          <$> times).
Proof.
  apply (grid_without_data Iso.dayjs Iso.localTime Iso.format_YMD
           (initialState "2024-06-01" "2024-06-02")); reflexivity.
Defined.

(** ** The day sequence: edges *)

(** X15: when a picker holds a string that is no date, as after it was
    cleared, the day sequence is empty and nothing is thrown: the grid
    keeps its rows and has no day column. *)
Theorem dates_cleared_picker (dayjs : string → Dayjs) (localTime : Z → Dayjs)
    (format_YMD : Dayjs → string) (st : State) :
  dayjs (startDate st) = InvalidDate ∨ dayjs (endDate st) = InvalidDate →
  dates dayjs localTime st = Ok []
  ∧ grid dayjs localTime format_YMD st = Ok ((λ time, (time, [])) <$> times).
Proof.
  intros Hinvalid.
  pose proof (dates_invalid dayjs localTime st Hinvalid) as Hdates.
  split; [exact Hdates|]. unfold grid. rewrite Hdates. reflexivity.
Qed.

Lemma dates_cleared_picker_witness :
  dates Iso.dayjs Iso.localTime
    (setEndDate "" (initialState "2024-06-01" "2024-06-07"))
  = Ok [].
Proof.
  apply (dates_cleared_picker Iso.dayjs Iso.localTime Iso.format_YMD
           (setEndDate "" (initialState "2024-06-01" "2024-06-07"))).
  right. reflexivity.
Defined.

(** X16: for dates a [Date] can hold, the derivation of the day sequence
    never throws, whatever the two pickers hold, and the sequence has at
    most 200,000,003 entries. It is empty exactly when one of the dates is
    invalid or the end is 24 hours or more before the start on the local
    clock, as when both are read at their midnight and the end date is
    before the start date; an end less than 24 hours before the start
    still gives an entry. *)
Theorem dates_returns (dayjs : string → Dayjs) (localTime : Z → Dayjs)
    (st : State) :
  (∀ t k, dayjs (startDate st) = Moment t k →
          - (maxDay * msPerDay) ≤ t - k ≤ maxDay * msPerDay) →
  (∀ t k, dayjs (endDate st) = Moment t k →
          - (maxDay * msPerDay) ≤ t - k ≤ maxDay * msPerDay) →
  ∃ days : list Dayjs,
    dates dayjs localTime st = Ok days
    ∧ Z.of_nat (length days) ≤ 2 * maxDay + 1
    ∧ (days = [] ↔
       ¬ ∃ ts ks te ke, dayjs (startDate st) = Moment ts ks
                        ∧ dayjs (endDate st) = Moment te ke
                        ∧ (ts - ks) - msPerDay < te - ke)
    ∧ (∀ s e, dayjs (startDate st) = LocalDay s →
              dayjs (endDate st) = LocalDay e → e < s → days = []).
Proof.
  intros Hstart Hend.
  destruct (dayjs (startDate st)) as [|ts ks] eqn:Es.
  { exists []. split; [apply dates_invalid; by left|].
    split; [by cbn|]. split; [|by intros s e [=]].
    split; [|done]. by intros _ (? & ? & ? & ? & [=] & _). }
  destruct (dayjs (endDate st)) as [|te ke] eqn:Ee.
  { exists []. split; [apply dates_invalid; by right|].
    split; [by cbn|]. split; [|by intros s e _ [=]].
    split; [|done]. by intros _ (? & ? & ? & ? & _ & [=] & _). }
  specialize (Hstart ts ks eq_refl). specialize (Hend te ke eq_refl).
  eexists. split; [by apply (dates_closed_form dayjs localTime st ts ks te ke)|].
  rewrite length_fmap, length_seq.
  pose proof (quot_days_bound ((te - ke) - (ts - ks)) ltac:(lia)) as Hq.
  assert (0 ≤ Z.quot ((te - ke) - (ts - ks)) msPerDay
          ↔ (ts - ks) - msPerDay < te - ke) as Hsign.
  { unfold msPerDay. Z.to_euclidean_division_equations. lia. }
  set (q := Z.quot ((te - ke) - (ts - ks)) msPerDay) in *.
  assert (((λ i : nat, localTime (ts + Z.of_nat i * msPerDay))
             <$> seq 0 (Z.to_nat (q + 1))) = [] ↔ q < 0) as Hnil.
  { split.
    - intros Hnil%(f_equal length). rewrite length_fmap, length_seq in Hnil.
      cbn in Hnil. lia.
    - intros Hneg. replace (Z.to_nat (q + 1)) with 0%nat by lia. reflexivity. }
  split_and!.
  - lia.
  - rewrite Hnil. split.
    + intros Hneg (ts' & ks' & te' & ke' & [= <- <-] & [= <- <-] & Hlt). lia.
    + intros Hno. destruct (decide (q < 0)) as [|Hq0]; [done|].
      exfalso. apply Hno. exists ts, ks, te, ke. split_and!; [done..|]. lia.
  - intros s e [= -> ->] [= -> ->] Hlt. apply Hnil.
    assert (¬ (s * msPerDay - 0 - msPerDay < e * msPerDay - 0))
      by (unfold msPerDay; lia).
    lia.
Qed.

Lemma dates_returns_witness :
  ∃ days : list Dayjs,
    dates Iso.dayjs Iso.localTime (initialState "2024-06-01" "2024-06-07")
    = Ok days
    ∧ Z.of_nat (length days) ≤ 2 * maxDay + 1.
Proof.
  destruct (dates_returns Iso.dayjs Iso.localTime
              (initialState "2024-06-01" "2024-06-07"))
    as (days & Hrun & Hlen & _).
  - intros t k H. vm_compute in H. injection H as <- <-.
    unfold maxDay, msPerDay. lia.
  - intros t k H. vm_compute in H. injection H as <- <-.
    unfold maxDay, msPerDay. lia.
  - exists days. split; [exact Hrun | exact Hlen].
Defined.

(** X17: when both dates are read at their local midnight, the end date is
    not before the start date, and no clock change skips the midnight of a
    day of the range, the day sequence has end - start + 1 entries, begins
    with the start date and ends with the end date, and every day from the
    one to the other is in it once: no day of the range is missing and
    none is repeated. *)
Theorem dates_endpoints (dayjs : string → Dayjs) (localTime : Z → Dayjs)
    (st : State) (s e : Z) :
  dayjs (startDate st) = LocalDay s → dayjs (endDate st) = LocalDay e →
  - maxDay ≤ s → e ≤ maxDay → s ≤ e →
  (∀ n, s ≤ n ≤ e → localTime (n * msPerDay) = LocalDay n) →
  ∃ days : list Dayjs,
    dates dayjs localTime st = Ok days
    ∧ Z.of_nat (length days) = e - s + 1
    ∧ head days = Some (dayjs (startDate st))
    ∧ last days = Some (dayjs (endDate st))
    ∧ (∀ d, d ∈ days ↔ ∃ n, d = LocalDay n ∧ s ≤ n ≤ e)
    ∧ NoDup days.
Proof.
  intros Hs He Hlo Hhi Hle Hzone. eexists.
  split; [by apply dates_midnights|]. rewrite Hs, He.
  assert (Z.to_nat (e - s + 1) = S (Z.to_nat (e - s))) as Hlen by lia.
  split_and!.
  - rewrite length_fmap, length_seq. lia.
  - rewrite Hlen. cbn. do 2 f_equal. lia.
  - rewrite last_lookup, length_fmap, length_seq, Hlen. cbn [pred].
    rewrite list_lookup_fmap, lookup_seq_lt by lia. cbn. do 2 f_equal. lia.
  - intros d. rewrite list_elem_of_fmap. setoid_rewrite elem_of_seq. split.
    + intros (i & -> & Hi). exists (s + Z.of_nat i). split; [done | lia].
    + intros (n & -> & Hn). exists (Z.to_nat (n - s)).
      split; [do 2 f_equal; lia | lia].
  - apply NoDup_fmap_2; [|apply NoDup_seq]. intros i j [= Hij].
    unfold msPerDay in Hij. lia.
Qed.

Lemma dates_endpoints_witness :
  ∃ days : list Dayjs,
    dates Iso.dayjs Iso.localTime (initialState "2024-06-01" "2024-06-07")
    = Ok days
    ∧ Z.of_nat (length days) = 19881 - 19875 + 1.
Proof.
  destruct (dates_endpoints Iso.dayjs Iso.localTime
              (initialState "2024-06-01" "2024-06-07") 19875 19881)
    as (days & Hrun & Hlen & _).
  - reflexivity.
  - reflexivity.
  - unfold maxDay. lia.
  - unfold maxDay. lia.
  - lia.
  - intros n Hn. unfold Iso.localTime, Iso.timeClip.
    rewrite andb_true_intro; [reflexivity|].
    unfold maxDay, msPerDay. split; lia.
  - exists days. split; [exact Hrun | exact Hlen].
Defined.

(** X18: at the mount the grid has seven day columns, today and the six
    days after it, provided the date library reads the two strings of the
    initial state as the local midnights of today and of the sixth day
    after it, and no clock change skips the midnight of a day of that
    week. *)
Theorem mount_week (dayjs : string → Dayjs) (localTime : Z → Dayjs)
    (format_YMD : Dayjs → string) (now : Dayjs) (today : Z) :
  - maxDay ≤ today → today + 6 ≤ maxDay →
  dayjs (format_YMD now) = LocalDay today →
  dayjs (format_YMD (dayjs_add_day localTime now 6)) = LocalDay (today + 6) →
  (∀ n, today ≤ n ≤ today + 6 → localTime (n * msPerDay) = LocalDay n) →
  dates dayjs localTime (mountState localTime format_YMD now)
  = Ok [LocalDay today; LocalDay (today + 1); LocalDay (today + 2);
        LocalDay (today + 3); LocalDay (today + 4); LocalDay (today + 5);
        LocalDay (today + 6)].
Proof.
  intros Hlo Hhi Hstart Hend Hzone.
  rewrite (dates_midnights dayjs localTime _ today (today + 6));
    [|done..|lia|done].
  replace (today + 6 - today + 1) with 7 by lia.
  change (Z.to_nat 7) with 7%nat. cbn [seq fmap list_fmap].
  repeat f_equal; lia.
Qed.

Lemma mount_week_witness :
  dates Iso.dayjs Iso.localTime
    (mountState Iso.localTime Iso.format_YMD
       (Moment (19875 * msPerDay + 36000000) 0))
  = Ok [LocalDay 19875; LocalDay (19875 + 1); LocalDay (19875 + 2);
        LocalDay (19875 + 3); LocalDay (19875 + 4); LocalDay (19875 + 5);
        LocalDay (19875 + 6)].
Proof.
  apply (mount_week Iso.dayjs Iso.localTime Iso.format_YMD
           (Moment (19875 * msPerDay + 36000000) 0) 19875).
  - unfold maxDay. lia.
  - unfold maxDay. lia.
  - vm_compute. reflexivity.
  - vm_compute. reflexivity.
  - intros n Hn. unfold Iso.localTime, Iso.timeClip.
    rewrite andb_true_intro; [reflexivity|].
    unfold maxDay, msPerDay. split; lia.
Defined.

(** ** The date picker input: its instance *)

Lemma flatpickr_fresh (value : string) (page : Page) :
  page !! (flatpickr value page).1 = None
  ∧ (flatpickr value page).2 = <[(flatpickr value page).1 := value]> page.
Proof.
  split; [|reflexivity]. apply not_elem_of_dom. cbn. apply is_fresh.
Qed.

Lemma renderPicker_invariant (page : Page) (value : string) (onChange : nat)
    (mounted : Picker * Page) :
  (∃ fp, picker_cleanup mounted.1 = Some fp ∧ page !! fp = None
         ∧ mounted.2 = <[fp := picker_value mounted.1]> page) →
  (∃ fp, picker_cleanup (renderPicker value onChange mounted).1 = Some fp
         ∧ page !! fp = None
         ∧ (renderPicker value onChange mounted).2
           = <[fp := picker_value (renderPicker value onChange mounted).1]> page)
  ∧ picker_value (renderPicker value onChange mounted).1 = value.
Proof.
  destruct mounted as [[v cb cleanup] live]. cbn.
  intros (fp & -> & Hfresh & ->). case_decide as Hdeps.
  - destruct Hdeps as [-> ->]. cbn. split; [|reflexivity]. by exists fp.
  - cbn. unfold destroy. rewrite delete_insert_id by done.
    destruct (flatpickr_fresh value page) as [Hnew Hpage]. cbn in Hnew, Hpage.
    split; [|reflexivity]. by eexists.
Qed.

(** X19: a mounted date picker input owns exactly one flatpickr instance.
    After the mount and any sequence of renders with new props, the page
    holds, beside what it held before the mount, one instance, which was
    created with the value of the last render as its default date and which
    the pending cleanup destroys; the unmount leaves the page as it was
    before the mount. *)
Theorem picker_single_instance (page : Page) (value : string) (onChange : nat)
    (renders : list (string * nat)) :
  let mounted :=
    foldl (λ mounted props, renderPicker props.1 props.2 mounted)
      (mountPicker value onChange page) renders in
  (∃ fp, picker_cleanup mounted.1 = Some fp
         ∧ page !! fp = None
         ∧ mounted.2 = <[fp := default value (last renders.*1)]> page)
  ∧ unmountPicker mounted = page.
Proof.
  intros mounted.
  assert ((∃ fp, picker_cleanup mounted.1 = Some fp ∧ page !! fp = None
                 ∧ mounted.2 = <[fp := picker_value mounted.1]> page)
          ∧ picker_value mounted.1 = default value (last renders.*1))
    as [(fp & Hcleanup & Hfresh & Hlive) Hvalue].
  { unfold mounted. clear mounted.
    induction renders as [|[v cb] renders IH] using rev_ind.
    - cbn. split; [|reflexivity].
      destruct (flatpickr_fresh value page) as [Hnew Hpage].
      cbn in Hnew, Hpage. by eexists.
    - rewrite foldl_app, fmap_app.
      change (renders.*1 ++ [(v, cb)].*1) with (renders.*1 ++ [v]).
      rewrite last_snoc. cbn [foldl fst snd default].
      destruct IH as [IH _].
      by apply renderPicker_invariant. }
  split.
  - exists fp. by rewrite <- Hvalue.
  - unfold unmountPicker. rewrite Hcleanup, Hlive. cbn. unfold destroy.
    by apply delete_insert_id.
Qed.

(** ** What an event leaves alone *)

Lemma handle_frame (st : State) (ev : Event) :
  ((∀ r, ev ≠ RequestSettled r) → bookings (handle st ev) = bookings st)
  ∧ ((∀ dateStr, ev ≠ StartPicked dateStr) →
       startDate (handle st ev) = startDate st)
  ∧ ((∀ dateStr, ev ≠ EndPicked dateStr) →
       endDate (handle st ev) = endDate st).
Proof.
  destruct ev as [dateStr|dateStr| |r]; cbn [handle]; split_and!;
    intros Hne; try reflexivity; try (by destruct (Hne dateStr)).
  - by destruct (Hne r).
  - by destruct (fetchSettle_cases r st)
      as [(? & ? & ? & _ & _ & _ & ->)|[_ ->]].
  - by destruct (fetchSettle_cases r st)
      as [(? & ? & ? & _ & _ & _ & ->)|[_ ->]].
Qed.

(** X20: the lookup table changes only when a request settles, and the
    date range only when a date is picked. Picking dates and sending
    requests leave the table as it is, so a new range is drawn from the
    table already held, without a fetch; and requests, sent or settled,
    leave the range and the day columns as they are. *)
Theorem run_frame (dayjs : string → Dayjs) (localTime : Z → Dayjs) (st : State) (evs : list Event) :
  ((∀ r, RequestSettled r ∉ evs) → bookings (run st evs) = bookings st)
  ∧ ((∀ dateStr, (StartPicked dateStr ∉ evs) ∧ (EndPicked dateStr ∉ evs)) →
       startDate (run st evs) = startDate st
       ∧ endDate (run st evs) = endDate st
       ∧ dates dayjs localTime (run st evs) = dates dayjs localTime st).
Proof.
  split.
  - revert st. induction evs as [|ev evs IH]; intros st Hnone; [done|].
    cbn [run foldl]. fold (run (handle st ev) evs). rewrite IH.
    + apply handle_frame. intros r ->. apply (Hnone r). by left.
    + intros r Hin. apply (Hnone r). by right.
  - intros Hnone.
    assert (startDate (run st evs) = startDate st
            ∧ endDate (run st evs) = endDate st) as [Hs He].
    { revert st. induction evs as [|ev evs IH]; intros st; [done|].
      cbn [run foldl]. fold (run (handle st ev) evs).
      destruct IH with (st := handle st ev) as [-> ->].
      - intros dateStr. destruct (Hnone dateStr) as [H1 H2].
        split; intros Hin; [apply H1 | apply H2]; by right.
      - split; apply handle_frame; intros dateStr ->;
          destruct (Hnone dateStr) as [H1 H2]; [apply H1 | apply H2]; by left. }
    split_and!; [done..|]. unfold dates. by rewrite Hs, He.
Qed.
